(** * Placement Test Result webhook: a shallow embedding of
      [placement_test/api/quiz_results.py] and the properties of its
      payload normalisation and upsert logic. *)

From Stdlib Require Import ZArith String Ascii Bool.
From stdpp Require Import base gmap strings list fin_maps pretty.

Local Open Scope Z_scope.
Set Warnings "-register-all".

(** ** Python values

    The payload is whatever [json.loads] produces: [None], booleans,
    unbounded integers, floats, strings, lists and dicts with string keys.
    A dict keeps its insertion order, which [fields.values()] iterates in,
    so a dict is an association list (keys are distinct in a dict that the
    interpreter built).  A string is the sequence of the bytes of its UTF-8
    encoding: a character beyond ASCII takes bytes from 128 on, an ASCII
    character is its own byte. *)

(** A binary64 float: not-a-number, an infinity, a signed zero, or the finite
    non-zero number [(-1)^neg * m * 2^e]. *)
Inductive pyfloat :=
| FNan
| FInf (neg : bool)
| FZero (neg : bool)
| FFin (neg : bool) (m : positive) (e : Z).

Inductive value :=
| VNone
| VBool (b : bool)
| VInt (n : Z)
| VFloat (f : pyfloat)
| VStr (s : string)
| VList (items : list value)
| VDict (entries : list (string * value)).

(** The exceptions that the handler can meet.  [RecursionError] is what
    [json.loads] and [json.dumps] raise on a structure nested deeper than the
    interpreter's stack allows; [StoreError] stands for whatever the database
    layer raises.  Every one of them derives from [Exception]. *)
Inductive exn :=
| TypeError
| ValueError
| OverflowError
| AttributeError
| RecursionError
| StoreError.

Inductive result (A : Type) :=
| Ok (a : A)
| Raise (e : exn).
Arguments Ok {A} a.
Arguments Raise {A} e.

Definition rbind {A B} (r : result A) (k : A -> result B) : result B :=
  match r with
  | Ok a => k a
  | Raise e => Raise e
  end.

Definition exn_eqb (a b : exn) : bool :=
  match a, b with
  | TypeError, TypeError | ValueError, ValueError
  | OverflowError, OverflowError | AttributeError, AttributeError
  | RecursionError, RecursionError | StoreError, StoreError => true
  | _, _ => false
  end.

(** [try: body except (handled...): handler] *)
Definition try_except {A} (handled : list exn) (body : result A) (handler : result A)
  : result A :=
  match body with
  | Ok a => Ok a
  | Raise e => if existsb (exn_eqb e) handled then handler else Raise e
  end.

(** ** Built-ins used by the module *)

(** [bool(v)], the test behind [if v], [not v] and [v or d]. *)
Definition truthy (v : value) : bool :=
  match v with
  | VNone => false
  | VBool b => b
  | VInt n => negb (n =? 0)
  | VFloat (FZero _) => false
  | VFloat _ => true
  | VStr s => negb (String.eqb s "")
  | VList l => match l with [] => false | _ => true end
  | VDict d => match d with [] => false | _ => true end
  end.

(** [a or b] *)
Definition py_or (a b : value) : value := if truthy a then a else b.

(** [v == s] for a string [s]: only an equal string compares equal. *)
Definition eq_str (v : value) (s : string) : bool :=
  match v with
  | VStr t => String.eqb t s
  | _ => false
  end.

Definition is_None (v : value) : bool :=
  match v with VNone => true | _ => false end.

(** [d.get(key)] on the entries of a dict: the value, or [None]. *)
Fixpoint dict_get (d : list (string * value)) (key : string) : value :=
  match d with
  | [] => VNone
  | (k, v) :: d' => if String.eqb k key then v else dict_get d' key
  end.

(** [v.get(key)]: only a dict has the method. *)
Definition py_get (v : value) (key : string) : result value :=
  match v with
  | VDict d => Ok (dict_get d key)
  | _ => Raise AttributeError
  end.

(** *** [int(...)] *)

(** The characters that [int] skips around an ASCII text: tab, line feed,
    vertical tab, form feed, carriage return and the space. *)
Definition is_space (c : ascii) : bool :=
  let n := nat_of_ascii c in
  ((9 <=? n)%nat && (n <=? 13)%nat) || (n =? 32)%nat.

Fixpoint lstrip (s : string) : string :=
  match s with
  | String c s' => if is_space c then lstrip s' else s
  | EmptyString => EmptyString
  end.

Definition strip (s : string) : string :=
  String.rev (lstrip (String.rev (lstrip s))).

Definition digit_of (c : ascii) : option Z :=
  let n := nat_of_ascii c in
  if ((48 <=? n)%nat && (n <=? 57)%nat) then Some (Z.of_nat n - 48) else None.

(** Decimal digits with single underscores allowed between two digits.
    [seen] tells whether the previous character was a digit. *)
Fixpoint parse_digits (s : string) (acc : Z) (seen : bool) : option Z :=
  match s with
  | EmptyString => if seen then Some acc else None
  | String c s' =>
      match digit_of c with
      | Some d => parse_digits s' (10 * acc + d) true
      | None =>
          if Ascii.eqb c "_" && seen then
            match s' with
            | EmptyString => None
            | String c' _ =>
                match digit_of c' with
                | Some _ => parse_digits s' acc false
                | None => None
                end
            end
          else None
      end
  end.

(** The default of [sys.get_int_max_str_digits()]: [int] refuses a text with
    more digits. *)
Definition max_str_digits : Z := 4300.

Fixpoint count_digits (s : string) : Z :=
  match s with
  | EmptyString => 0
  | String c s' =>
      match digit_of c with
      | Some _ => 1 + count_digits s'
      | None => count_digits s'
      end
  end.

Definition parse_limited (r : string) : option Z :=
  if max_str_digits <? count_digits r then None else parse_digits r 0 false.

(** [int(s)] for an ASCII text, base ten: surrounding whitespace, an optional
    sign, then digits, [max_str_digits] of them at most.  [None] is
    [ValueError]. *)
Definition parse_int (s : string) : option Z :=
  match strip s with
  | String "-" r => Z.opp <$> parse_limited r
  | String "+" r => parse_limited r
  | r => parse_limited r
  end.

(** Whether every character of the text is an ASCII one. *)
Fixpoint is_ascii_text (s : string) : bool :=
  match s with
  | EmptyString => true
  | String c s' => (nat_of_ascii c <? 128)%nat && is_ascii_text s'
  end.

(** [int(f)] for a float truncates towards zero. *)
Definition float_trunc (neg : bool) (m : positive) (e : Z) : Z :=
  let a := if 0 <=? e then Z.pos m * 2 ^ e else Z.pos m / 2 ^ (- e) in
  if neg then - a else a.

(** *** [float(...)] *)

(** [float(n)] for an integer: round to 53 significant bits, ties to even;
    a result of magnitude [2^1024] or more is an [OverflowError]. *)
Definition float_of_int (n : Z) : result pyfloat :=
  match n with
  | Z0 => Ok (FZero false)
  | _ =>
      let a := Z.abs n in
      let bits := Z.log2 a + 1 in
      let sh := Z.max 0 (bits - 53) in
      let q := Z.shiftr a sh in
      let r := Z.land a (Z.ones sh) in
      let half := Z.shiftl 1 (sh - 1) in
      let up := (0 <? sh) && ((half <? r) || ((r =? half) && Z.odd q)) in
      let q' := if up then q + 1 else q in
      if 2 ^ 1024 <=? q' * 2 ^ sh then Raise OverflowError
      else Ok (FFin (n <? 0) (Z.to_pos q') sh)
  end.

(** [value in (None, "", "null")] *)
Definition is_absent (v : value) : bool :=
  is_None v || eq_str v "" || eq_str v "null".

(** ** Host services

    What the module takes from the interpreter and from the Frappe framework
    and that is not part of this repository. *)

(** A [datetime.datetime], to the second. *)
Record datetime := Datetime {
  year : nat; month : nat; day : nat;
  hour : nat; minute : nat; second : nat
}.

(** A stored document: its name (the primary key) and its field values. *)
Record doc := Doc {
  doc_name : string;
  doc_fields : gmap string value
}.

Class Host := {
  (** [str(v)] where the text is the interpreter's [repr]: floats, lists, dicts *)
  py_repr : value -> string;
  (** [float(s)] for a string; [None] is [ValueError] *)
  parse_float : string -> option pyfloat;
  (** [frappe.utils.get_datetime]: raises, or returns a datetime or [None] *)
  get_datetime : value -> result (option datetime);
  (** [int(s)] for a text with characters beyond ASCII, where the
      interpreter's Unicode tables tell the spaces and the decimal digits;
      [None] is [ValueError] *)
  int_of_unicode : string -> option Z;
  (** [json.loads(s)]: the value, or the exception raised: [JSONDecodeError]
      (a [ValueError]) on a text that is not JSON, [RecursionError] on one
      nested too deep *)
  json_loads : string -> result value;
  (** [json.dumps(obj)] with the default options: the text, or the exception
      raised *)
  json_dumps_default : value -> result string;
  (** the name that the DocType's naming rule gives a new document *)
  autoname : gmap string value -> list doc -> string
}.

(** The request as the framework presents it. *)
Record request := Request {
  (** the outcome of [frappe.request.get_json()] *)
  get_json : result value;
  (** [frappe.form_dict] *)
  form_dict : value
}.

Definition pad2 (n : nat) : string :=
  if (n <? 10)%nat then "0" +:+ pretty n else pretty n.

(** [dt.strftime("%Y-%m-%d %H:%M:%S")].  The C library writes the year of
    [%Y] without padding, so a year below 1000 has fewer than four digits. *)
Definition strftime (dt : datetime) : string :=
  pretty (year dt) +:+ "-" +:+ pad2 (month dt) +:+ "-" +:+ pad2 (day dt) +:+ " " +:+
  pad2 (hour dt) +:+ ":" +:+ pad2 (minute dt) +:+ ":" +:+ pad2 (second dt).

(** *** JSON text *)

Definition hex_digit (n : nat) : ascii :=
  ascii_of_nat (if (n <? 10)%nat then 48 + n else 87 + n).

Definition dquote : ascii := ascii_of_nat 34.

(** One character inside a JSON string literal, [ensure_ascii=False]. *)
Definition json_escape_char (c : ascii) : string :=
  let n := nat_of_ascii c in
  if (n =? 34)%nat then String "\" (String dquote "")
  else if (n =? 92)%nat then "\\"
  else if (n =? 10)%nat then "\n"
  else if (n =? 13)%nat then "\r"
  else if (n =? 9)%nat then "\t"
  else if (n =? 8)%nat then "\b"
  else if (n =? 12)%nat then "\f"
  else if (n <? 32)%nat then
    "\u00" +:+ String (hex_digit (n / 16)) (String (hex_digit (n mod 16)) "")
  else String c "".

Fixpoint json_escape (s : string) : string :=
  match s with
  | EmptyString => ""
  | String c s' => json_escape_char c +:+ json_escape s'
  end.

Definition json_string (s : string) : string :=
  String dquote (json_escape s +:+ String dquote "").

Fixpoint join (sep : string) (parts : list string) : string :=
  match parts with
  | [] => ""
  | [p] => p
  | p :: rest => p +:+ sep +:+ join sep rest
  end.

(** ** The store

    The rows of the "Placement Test Result" DocType as the request sees them
    ([db_session]) and as committed ([db_committed]), and the error log that
    [frappe.log_error] appends to. *)
Record world := World {
  db_committed : list doc;
  db_session : list doc;
  error_log : list string
}.

(** The calls into the store that may raise. *)
Inductive store_op :=
| OpGetAll | OpGetDoc | OpNewDoc | OpUpdate | OpSave | OpInsert | OpCommit.

(** Computations that read and write the world and may raise. *)
Definition M (A : Type) : Type := world -> result A * world.

Definition ret {A} (a : A) : M A := fun w => (Ok a, w).

Definition bind {A B} (m : M A) (k : A -> M B) : M B :=
  fun w => match m w with
           | (Ok a, w') => k a w'
           | (Raise e, w') => (Raise e, w')
           end.

Definition lift {A} (r : result A) : M A := fun w => (r, w).

(** [try: body except Exception: handler] *)
Definition try_catch {A} (body : M A) (handler : M A) : M A :=
  fun w => match body w with
           | (Ok a, w') => (Ok a, w')
           | (Raise _, w') => handler w'
           end.

Notation "x <- m ;; k" := (bind m (fun x => k))
  (at level 100, m at next level, right associativity).
Notation "m ;;; k" := (bind m (fun _ => k))
  (at level 100, k at level 200, right associativity).

Section QuizResults.
Context `{Host}.

(** [str(v)].  (An integer that [json.loads] produced has [max_str_digits]
    digits at most, which [str] writes in full.) *)
Definition py_str (v : value) : string :=
  match v with
  | VStr s => s
  | VInt n => pretty n
  | VBool b => if b then "True" else "False"
  | VNone => "None"
  | _ => py_repr v
  end.

(** [float(v)] *)
Definition py_float (v : value) : result pyfloat :=
  match v with
  | VNone => Raise TypeError
  | VBool b => Ok (if b then FFin false 1 0 else FZero false)
  | VInt n => float_of_int n
  | VFloat f => Ok f
  | VStr s => match parse_float s with Some f => Ok f | None => Raise ValueError end
  | VList _ | VDict _ => Raise TypeError
  end.

(** [json.dumps(v, ensure_ascii=False, separators=(",", ":"))] *)
Fixpoint json_dumps (v : value) : string :=
  match v with
  | VNone => "null"
  | VBool b => if b then "true" else "false"
  | VInt n => pretty n
  | VFloat FNan => "NaN"
  | VFloat (FInf neg) => if neg then "-Infinity" else "Infinity"
  | VFloat f => py_repr (VFloat f)
  | VStr s => json_string s
  | VList items => "[" +:+ join "," (List.map json_dumps items) +:+ "]"
  | VDict entries =>
      "{" +:+ join "," (List.map (fun '(k, x) => json_string k +:+ ":" +:+ json_dumps x)
                          entries) +:+ "}"
  end.

(** [int(s)] for a string. *)
Definition int_of_str (s : string) : option Z :=
  if is_ascii_text s then parse_int s else int_of_unicode s.

(** [int(v)] *)
Definition py_int (v : value) : result Z :=
  match v with
  | VNone => Raise TypeError
  | VBool b => Ok (if b then 1 else 0)
  | VInt n => Ok n
  | VFloat FNan => Raise ValueError
  | VFloat (FInf _) => Raise OverflowError
  | VFloat (FZero _) => Ok 0
  | VFloat (FFin neg m e) => Ok (float_trunc neg m e)
  | VStr s => match int_of_str s with Some n => Ok n | None => Raise ValueError end
  | VList _ | VDict _ => Raise TypeError
  end.

(** The two [except] clauses of lines 28 and 32 catch [TypeError] and
    [ValueError]; whatever else [json.loads] or [json.dumps] raises leaves
    the function. *)
Definition _load_payload (req : request) : result value :=
  match (match get_json req with
         | Ok data => if truthy data then Some data else None
         | Raise _ => None
         end) with
  | Some data => Ok data
  | None =>
      if truthy (form_dict req) then
        match form_dict req with
        | VDict fd =>
            match fd with
            | [(_, VStr sole_value)] =>
                try_except [TypeError; ValueError]
                  (json_loads sole_value) (Ok (VDict []))
            | _ =>
                try_except [TypeError; ValueError]
                  (rbind (json_dumps_default (VDict fd)) json_loads)
                  (Ok (VDict []))
            end
        | _ => Ok (VDict [])
        end
      else Ok (VDict [])
  end.

Definition _to_int (v : value) : result (option Z) :=
  if is_absent v then Ok None
  else try_except [TypeError; ValueError]
         (rbind (py_int v) (fun n => Ok (Some n)))
         (Ok None).

Definition _to_float (v : value) : result (option pyfloat) :=
  if is_absent v then Ok None
  else try_except [TypeError; ValueError]
         (rbind (py_float v) (fun f => Ok (Some f)))
         (Ok None).

(** The body of the [try] catches every [Exception]; [None.strftime] is an
    [AttributeError], caught as well. *)
Definition _to_datetime (v : value) : option string :=
  if negb (truthy v) then None
  else match get_datetime v with
       | Ok (Some dt) => Some (strftime dt)
       | Ok None => None
       | Raise _ => None
       end.

(** [candidate not in (None, "")] *)
Definition not_empty (candidate : value) : bool :=
  negb (is_None candidate || eq_str candidate "").

(** [isinstance(field_value, dict) and field_value.get("label") == label] *)
Definition label_matches (label : string) (field_value : value) : bool :=
  match field_value with
  | VDict fv => eq_str (dict_get fv "label") label
  | _ => false
  end.

(** The [item] that the first block settles on: [fields.get(slug)], or when
    that is falsy the first value of [fields] that carries the label. *)
Definition fields_item (fields : list (string * value)) (slug label : string) : value :=
  let item := dict_get fields slug in
  if truthy item then item
  else match List.find (label_matches label) (List.map snd fields) with
       | Some field_value => field_value
       | None => item
       end.

Definition from_fields (payload : list (string * value)) (slug label : string)
  : option string :=
  match py_or (dict_get payload "fields") (VDict []) with
  | VDict fields =>
      match fields_item fields slug label with
      | VDict item =>
          let candidate := dict_get item "value" in
          if not_empty candidate then Some (py_str candidate) else None
      | _ => None
      end
  | _ => None
  end.

(** The loop over [custom_fields]. *)
Fixpoint scan_custom_fields (entries : list value) (slug label : string)
  : option string :=
  match entries with
  | [] => None
  | VDict entry :: rest =>
      if eq_str (dict_get entry "slug") slug || eq_str (dict_get entry "label") label then
        let candidate := dict_get entry "value" in
        if not_empty candidate then Some (py_str candidate)
        else scan_custom_fields rest slug label
      else scan_custom_fields rest slug label
  | _ :: rest => scan_custom_fields rest slug label
  end.

Definition from_custom_fields (payload : list (string * value)) (slug label : string)
  : option string :=
  match py_or (dict_get payload "custom_fields") (VList []) with
  | VList custom_fields => scan_custom_fields custom_fields slug label
  | _ => None
  end.

Definition from_custom_field_values (payload : list (string * value)) (slug : string)
  : option string :=
  match py_or (dict_get payload "custom_field_values") (VDict []) with
  | VDict custom_field_values =>
      let candidate := dict_get custom_field_values slug in
      if not_empty candidate then Some (py_str candidate) else None
  | _ => None
  end.

Definition _extract_custom_value (payload : list (string * value)) (slug label : string)
  : option string :=
  match from_fields payload slug label with
  | Some s => Some s
  | None =>
      match from_custom_fields payload slug label with
      | Some s => Some s
      | None => from_custom_field_values payload slug
      end
  end.

(** *** Store calls.  [fails op] tells whether the call [op] raises in this
    request. *)
Section Handler.
Variable fails : store_op -> bool.

Definition guard (op : store_op) : M unit :=
  fun w => if fails op then (Raise StoreError, w) else (Ok tt, w).

Definition has_result_id (rid : Z) (d : doc) : bool :=
  match doc_fields d !! "result_id" with
  | Some (VInt n) => n =? rid
  | _ => false
  end.

Definition has_name (name : string) (d : doc) : bool := String.eqb (doc_name d) name.

(** [frappe.get_all(DOC_TYPE, filters={"result_id": rid}, pluck="name", limit=1)] *)
Definition get_all (rid : Z) : M (list string) :=
  guard OpGetAll ;;;
  fun w => (Ok match List.find (has_result_id rid) (db_session w) with
               | Some d => [doc_name d]
               | None => []
               end, w).

(** [frappe.get_doc(DOC_TYPE, name)] *)
Definition get_doc (name : string) : M doc :=
  guard OpGetDoc ;;;
  fun w => match List.find (has_name name) (db_session w) with
           | Some d => (Ok d, w)
           | None => (Raise StoreError, w)
           end.

(** [frappe.new_doc(DOC_TYPE)] *)
Definition new_doc : M doc :=
  guard OpNewDoc ;;; ret (Doc "" ∅).

(** [doc.update(values)]: every key of [values] is set on the document. *)
Definition set_fields (values : list (string * value)) (fields : gmap string value)
  : gmap string value :=
  fold_left (fun m kv => <[kv.1 := kv.2]> m) values fields.

Definition doc_update (d : doc) (values : list (string * value)) : M doc :=
  guard OpUpdate ;;; ret (Doc (doc_name d) (set_fields values (doc_fields d))).

(** [doc.save(ignore_permissions=True)]: the row of that name is replaced. *)
Definition doc_save (d : doc) : M doc :=
  guard OpSave ;;;
  fun w => if existsb (has_name (doc_name d)) (db_session w) then
             (Ok d, World (db_committed w)
                      (List.map (fun d' => if has_name (doc_name d) d' then d else d')
                         (db_session w))
                      (error_log w))
           else (Raise StoreError, w).

(** [doc.insert(ignore_permissions=True)]: the document is named and added; a
    name already in use is refused. *)
Definition doc_insert (d : doc) : M doc :=
  guard OpInsert ;;;
  fun w => let name := autoname (doc_fields d) (db_session w) in
           if existsb (has_name name) (db_session w) then (Raise StoreError, w)
           else let d' := Doc name (doc_fields d) in
                (Ok d', World (db_committed w) (db_session w ++ [d']) (error_log w)).

(** [frappe.db.commit()] *)
Definition db_commit : M unit :=
  guard OpCommit ;;;
  fun w => (Ok tt, World (db_session w) (db_session w) (error_log w)).

(** [frappe.db.rollback()] *)
Definition db_rollback : M unit :=
  fun w => (Ok tt, World (db_committed w) (db_committed w) (error_log w)).

(** [frappe.log_error(frappe.get_traceback(), title)] *)
Definition log_error (title : string) : M unit :=
  fun w => (Ok tt, World (db_committed w) (db_session w) (error_log w ++ [title])).

(** *** The endpoint *)

Definition error_response (message : string) : value :=
  VDict [("status", VStr "error"); ("message", VStr message)].

Definition success_response (docname : string) (result_id : Z) : value :=
  VDict [("status", VStr "success"); ("docname", VStr docname);
         ("result_id", VInt result_id)].

Definition of_int (o : option Z) : value :=
  match o with Some n => VInt n | None => VNone end.
Definition of_float (o : option pyfloat) : value :=
  match o with Some f => VFloat f | None => VNone end.
Definition of_str (o : option string) : value :=
  match o with Some s => VStr s | None => VNone end.

(** The [doc_values] dict literal, evaluated entry by entry. *)
Definition doc_values (payload : list (string * value)) (result_id : Z)
    (quiz_title : value) : M (list (string * value)) :=
  quiz_id <- lift (_to_int (dict_get payload "quiz_id")) ;;
  score_percentage <- lift (_to_float (dict_get payload "score_percentage")) ;;
  final_score <- lift (_to_float (dict_get payload "final_score")) ;;
  score_by <- lift (_to_float (dict_get payload "score_by")) ;;
  points <- lift (_to_float (dict_get payload "points")) ;;
  duration_seconds <- lift (_to_int (dict_get payload "duration_seconds")) ;;
  user_email <- lift (py_get (py_or (dict_get payload "user") (VDict [])) "email") ;;
  user_phone <- lift (py_get (py_or (dict_get payload "user") (VDict [])) "phone") ;;
  ret [("result_id", VInt result_id);
       ("quiz_id", of_int quiz_id);
       ("quiz_title", VStr (py_str quiz_title));
       ("score_percentage", of_float score_percentage);
       ("final_score", of_float final_score);
       ("score_by", of_float score_by);
       ("score_type", dict_get payload "score_type");
       ("points", of_float points);
       ("duration_seconds", of_int duration_seconds);
       ("start_time", of_str (_to_datetime (dict_get payload "start_date")));
       ("end_time", of_str (_to_datetime (dict_get payload "end_date")));
       ("submitted_at", of_str (_to_datetime (dict_get payload "submitted_at")));
       ("student_name", of_str (_extract_custom_value payload "quiz_attr_2" "Student's Name"));
       ("student_id", of_str (_extract_custom_value payload "quiz_attr_1" "Student's ID"));
       ("tester_name", of_str (_extract_custom_value payload "quiz_attr_6" "Tester's Name"));
       ("user_email", user_email);
       ("user_phone", user_phone);
       ("user_ip", dict_get payload "user_ip");
       ("integration_source", dict_get payload "integration");
       ("raw_payload", VStr (json_dumps (VDict payload)))].

(** [{k: v for k, v in doc_values.items() if v is not None}] *)
Definition non_null (values : list (string * value)) : list (string * value) :=
  List.filter (fun kv => negb (is_None kv.2)) values.

(** Lines 137-158: the lookup, then the guarded find-or-create. *)
Definition upsert (result_id : Z) (values : list (string * value)) : M value :=
  existing <- get_all result_id ;;
  try_catch
    (doc <- match existing with
            | name :: _ =>
                doc <- get_doc name ;;
                doc <- doc_update doc (non_null values) ;;
                doc_save doc
            | [] =>
                doc <- new_doc ;;
                doc <- doc_update doc (non_null values) ;;
                doc_insert doc
            end ;;
     db_commit ;;;
     ret (success_response (doc_name doc) result_id))
    (db_rollback ;;;
     log_error "Placement Test Result API Error" ;;;
     ret (error_response "An unexpected error occurred.")).

Definition submit_quiz_result (req : request) : M value :=
  payload <- lift (_load_payload req) ;;
  if negb (truthy payload) then ret (error_response "Missing payload.")
  else
    raw_id <- lift (py_get payload "result_id") ;;
    result_id <- lift (_to_int raw_id) ;;
    quiz_title <- lift (py_get payload "quiz_title") ;;
    if negb (truthy (of_int result_id)) || negb (truthy quiz_title) then
      ret (error_response "Both result_id and quiz_title are required.")
    else
      match payload, result_id with
      | VDict p, Some rid =>
          values <- doc_values p rid quiz_title ;;
          upsert rid values
      | _, _ =>
          (* not reached: [payload.get] succeeded and [result_id] is truthy *)
          lift (Raise AttributeError)
      end.

End Handler.
End QuizResults.

Arguments submit_quiz_result {_} fails req w.
Arguments upsert {_} fails result_id values w.

(** ** A host to run examples on

    It reads timestamps written [YYYY-MM-DD HH:MM:SS] (or with a [T]), reads
    floats written as integers, names documents after their [result_id],
    reads three JSON texts and writes none. *)

Definition two_digits (a b : ascii) : option nat :=
  match digit_of a, digit_of b with
  | Some x, Some y => Some (Z.to_nat (10 * x + y))
  | _, _ => None
  end.

Definition example_get_datetime (v : value) : result (option datetime) :=
  match v with
  | VStr (String y1 (String y2 (String y3 (String y4 (String "-"
      (String m1 (String m2 (String "-" (String d1 (String d2 (String sep
      (String h1 (String h2 (String ":" (String i1 (String i2 (String ":"
      (String s1 (String s2 EmptyString))))))))))))))))))) =>
      match two_digits y1 y2, two_digits y3 y4, two_digits m1 m2, two_digits d1 d2,
            two_digits h1 h2, two_digits i1 i2, two_digits s1 s2 with
      | Some ya, Some yb, Some mo, Some da, Some ho, Some mi, Some se =>
          if (Ascii.eqb sep " " || Ascii.eqb sep "T")
             && (1 <=? 100 * ya + yb)%nat
             && (1 <=? mo)%nat && (mo <=? 12)%nat && (1 <=? da)%nat && (da <=? 31)%nat
             && (ho <=? 23)%nat && (mi <=? 59)%nat && (se <=? 59)%nat
          then Ok (Some (Datetime (100 * ya + yb) mo da ho mi se))
          else Raise ValueError
      | _, _, _, _, _, _, _ => Raise ValueError
      end
  | VStr _ => Raise ValueError
  | _ => Raise TypeError
  end.

Definition example_parse_float (s : string) : option pyfloat :=
  match parse_int s with
  | Some n => match float_of_int n with Ok f => Some f | Raise _ => None end
  | None => None
  end.

Definition example_autoname (fields : gmap string value) (rows : list doc) : string :=
  match fields !! "result_id" with
  | Some (VInt n) => "PTR-" +:+ pretty n
  | _ => "PTR"
  end.

(** The deepest nesting of brackets and braces in a text. *)
Fixpoint nesting (s : string) (depth deepest : nat) : nat :=
  match s with
  | EmptyString => deepest
  | String c r =>
      if Ascii.eqb c "[" || Ascii.eqb c "{" then
        nesting r (S depth) (Nat.max deepest (S depth))
      else if Ascii.eqb c "]" || Ascii.eqb c "}" then nesting r (Nat.pred depth) deepest
      else nesting r depth deepest
  end.

(** Reads the texts of [null] and of the two empty containers only, and runs
    out of stack on a text nested a thousand deep. *)
Definition example_json_loads (s : string) : result value :=
  let t := strip s in
  if (1000 <=? nesting t 0 0)%nat then Raise RecursionError
  else if String.eqb t "null" then Ok VNone
  else if String.eqb t "{}" then Ok (VDict [])
  else if String.eqb t "[]" then Ok (VList [])
  else Raise ValueError.

Definition example_host : Host := {|
  py_repr := fun _ => "<repr>";
  parse_float := example_parse_float;
  get_datetime := example_get_datetime;
  int_of_unicode := fun _ => None;
  json_loads := example_json_loads;
  json_dumps_default := fun _ => Raise TypeError;
  autoname := example_autoname
|}.

Definition no_faults : store_op -> bool := fun _ => false.
Definition empty_world : world := World [] [] [].

(** A request whose JSON body parsed to [payload]. *)
Definition json_request (payload : value) : request := Request (Ok payload) (VDict []).

Definition sample_payload : value :=
  VDict [("result_id", VInt 123); ("quiz_title", VStr "Math Quiz"); ("quiz_id", VStr "9");
         ("score_percentage", VStr "90"); ("final_score", VInt 35);
         ("start_date", VStr "2024-01-01T10:00:00");
         ("fields", VDict [("quiz_attr_2",
                            VDict [("label", VStr "Student's Name");
                                   ("value", VStr "Jane Doe")])]);
         ("user", VDict [("email", VStr "jane@example.com")])].

(** ** JSON text as RFC 8259 defines it

    A recogniser for the grammar of the RFC, to judge what [json_dumps]
    writes.  Each function returns what is left of the text after the
    construct it recognises. *)

Definition is_digit (c : ascii) : bool :=
  match digit_of c with Some _ => true | None => false end.

Definition is_hex (c : ascii) : bool :=
  let n := nat_of_ascii c in
  is_digit c || ((65 <=? n)%nat && (n <=? 70)%nat) || ((97 <=? n)%nat && (n <=? 102)%nat).

Definition is_json_ws (c : ascii) : bool :=
  let n := nat_of_ascii c in
  (n =? 32)%nat || (n =? 9)%nat || (n =? 10)%nat || (n =? 13)%nat.

Fixpoint skip_ws (s : string) : string :=
  match s with
  | String c r => if is_json_ws c then skip_ws r else s
  | EmptyString => EmptyString
  end.

Fixpoint skip_digits (s : string) : string :=
  match s with
  | String c r => if is_digit c then skip_digits r else s
  | EmptyString => EmptyString
  end.

(** One digit or more. *)
Definition rec_digits (s : string) : option string :=
  match s with
  | String c r => if is_digit c then Some (skip_digits r) else None
  | EmptyString => None
  end.

Definition rec_exp (s : string) : option string :=
  match s with
  | String c r =>
      if Ascii.eqb c "e" || Ascii.eqb c "E" then
        match r with
        | String sign r' =>
            if Ascii.eqb sign "+" || Ascii.eqb sign "-" then rec_digits r'
            else rec_digits r
        | EmptyString => None
        end
      else Some s
  | EmptyString => Some s
  end.

Definition rec_frac_exp (s : string) : option string :=
  match s with
  | String "." r =>
      match rec_digits r with
      | Some r' => rec_exp r'
      | None => None
      end
  | _ => rec_exp s
  end.

Definition rec_number (s : string) : option string :=
  let s := match s with String "-" r => r | _ => s end in
  match s with
  | String "0" r => rec_frac_exp r
  | String c r => if is_digit c then rec_frac_exp (skip_digits r) else None
  | EmptyString => None
  end.

(** The characters of a string literal after its opening quote. *)
Fixpoint rec_string_body (s : string) : option string :=
  match s with
  | EmptyString => None
  | String c r =>
      let n := nat_of_ascii c in
      if (n =? 34)%nat then Some r
      else if (n =? 92)%nat then
        match r with
        | String "u" (String h1 (String h2 (String h3 (String h4 r')))) =>
            if is_hex h1 && is_hex h2 && is_hex h3 && is_hex h4
            then rec_string_body r' else None
        | String e r' =>
            let m := nat_of_ascii e in
            if (m =? 34)%nat || (m =? 92)%nat || Ascii.eqb e "/" || Ascii.eqb e "b"
               || Ascii.eqb e "f" || Ascii.eqb e "n" || Ascii.eqb e "r" || Ascii.eqb e "t"
            then rec_string_body r' else None
        | EmptyString => None
        end
      else if (n <? 32)%nat then None
      else rec_string_body r
  end.

Definition rec_string (s : string) : option string :=
  match s with
  | String c r => if (nat_of_ascii c =? 34)%nat then rec_string_body r else None
  | EmptyString => None
  end.

Fixpoint rec_literal (lit s : string) : option string :=
  match lit with
  | EmptyString => Some s
  | String c lit' =>
      match s with
      | String c' s' => if Ascii.eqb c c' then rec_literal lit' s' else None
      | EmptyString => None
      end
  end.

Fixpoint rec_value (fuel : nat) (s : string) : option string :=
  match fuel with
  | O => None
  | S n =>
      match s with
      | String "[" r =>
          match skip_ws r with
          | String "]" r' => Some r'
          | r1 => rec_elements n r1
          end
      | String "{" r =>
          match skip_ws r with
          | String "}" r' => Some r'
          | r1 => rec_members n r1
          end
      | String "t" _ => rec_literal "true" s
      | String "f" _ => rec_literal "false" s
      | String "n" _ => rec_literal "null" s
      | String c _ => if (nat_of_ascii c =? 34)%nat then rec_string s else rec_number s
      | EmptyString => None
      end
  end
with rec_elements (fuel : nat) (s : string) : option string :=
  match fuel with
  | O => None
  | S n =>
      match rec_value n s with
      | Some r =>
          match skip_ws r with
          | String "," r' => rec_elements n (skip_ws r')
          | String "]" r' => Some r'
          | _ => None
          end
      | None => None
      end
  end
with rec_members (fuel : nat) (s : string) : option string :=
  match fuel with
  | O => None
  | S n =>
      match rec_string s with
      | Some r =>
          match skip_ws r with
          | String ":" r1 =>
              match rec_value n (skip_ws r1) with
              | Some r2 =>
                  match skip_ws r2 with
                  | String "," r3 => rec_members n (skip_ws r3)
                  | String "}" r3 => Some r3
                  | _ => None
                  end
              | None => None
              end
          | _ => None
          end
      | None => None
      end
  end.

(** The whole text is one JSON value, with optional whitespace around it. *)
Definition json_valid (s : string) : bool :=
  match rec_value (2 * String.length s + 2) (skip_ws s) with
  | Some r => String.eqb (skip_ws r) ""
  | None => false
  end.

(** [s] between double quotes. *)
Definition quoted (s : string) : string := String dquote (s +:+ String dquote "").

(** The shape [YYYY-MM-DD HH:MM:SS]. *)
Definition is_timestamp (s : string) : bool :=
  match s with
  | String y1 (String y2 (String y3 (String y4 (String "-"
      (String m1 (String m2 (String "-" (String d1 (String d2 (String " "
      (String h1 (String h2 (String ":" (String i1 (String i2 (String ":"
      (String s1 (String s2 EmptyString)))))))))))))))))) =>
      forallb is_digit [y1; y2; y3; y4; m1; m2; d1; d2; h1; h2; i1; i2; s1; s2]
  | _ => false
  end.

(** What [datetime] guarantees of its fields. *)
Definition valid_datetime (dt : datetime) : Prop :=
  (1 <= year dt < 10 ^ 4 /\ 1 <= month dt <= 12 /\ 1 <= day dt <= 31
   /\ hour dt <= 23 /\ minute dt <= 59 /\ second dt <= 59)%nat.

(** An entry of [custom_fields] that ends the loop: a dict that matches the
    slug or the label and whose value is not empty. *)
Definition custom_hit `{Host} (slug label : string) (entry : value) : bool :=
  match entry with
  | VDict e =>
      (eq_str (dict_get e "slug") slug || eq_str (dict_get e "label") label)
      && not_empty (dict_get e "value")
  | _ => false
  end.

(** The part of [_extract_custom_value] after the [fields] block. *)
Definition after_fields `{Host} (payload : list (string * value)) (slug label : string)
  : option string :=
  match from_custom_fields payload slug label with
  | Some s => Some s
  | None => from_custom_field_values payload slug
  end.

(** *** The order of extraction, source by source

    What each of the sources holds for a slug and a label, if anything. *)

(** Sources (1) and (2): the [value] of [fields[slug]] when that is truthy,
    and otherwise of the first value of [fields] that is a dict carrying the
    label. *)
Definition fields_candidate (payload : list (string * value)) (slug label : string)
  : option value :=
  match dict_get payload "fields" with
  | VDict fields =>
      if truthy (dict_get fields slug) then
        match dict_get fields slug with
        | VDict item => Some (dict_get item "value")
        | _ => None
        end
      else
        match List.find (label_matches label) (List.map snd fields) with
        | Some (VDict item) => Some (dict_get item "value")
        | _ => None
        end
  | _ => None
  end.

(** Source (3): the [value] of the first entry of [custom_fields] that is a
    dict, matches the slug or the label and has a non-empty value. *)
Definition custom_fields_candidate `{Host} (payload : list (string * value))
    (slug label : string) : option value :=
  match dict_get payload "custom_fields" with
  | VList entries =>
      match List.find (custom_hit slug label) entries with
      | Some (VDict entry) => Some (dict_get entry "value")
      | _ => None
      end
  | _ => None
  end.

(** Source (4): [custom_field_values[slug]]. *)
Definition custom_field_values_candidate (payload : list (string * value)) (slug : string)
  : option value :=
  match dict_get payload "custom_field_values" with
  | VDict values => Some (dict_get values slug)
  | _ => None
  end.

(** The first candidate that is not empty, as a string. *)
Fixpoint first_non_empty `{Host} (candidates : list (option value)) : option string :=
  match candidates with
  | [] => None
  | Some candidate :: rest =>
      if not_empty candidate then Some (py_str candidate) else first_non_empty rest
  | None :: rest => first_non_empty rest
  end.

Definition extraction_order `{Host} (payload : list (string * value)) (slug label : string)
  : option string :=
  first_non_empty [fields_candidate payload slug label;
                   custom_fields_candidate payload slug label;
                   custom_field_values_candidate payload slug].

Definition log_title : string := "Placement Test Result API Error".

(** The world after the [except] block, entered from [w]. *)
Definition rolled_back (w : world) : world :=
  World (db_committed w) (db_committed w) (error_log w ++ [log_title]).

Definition replace_row (d : doc) (rows : list doc) : list doc :=
  List.map (fun d' => if has_name (doc_name d) d' then d else d') rows.

Definition merged (d : doc) (values : list (string * value)) : doc :=
  Doc (doc_name d) (set_fields (non_null values) (doc_fields d)).

Definition created `{Host} (values : list (string * value)) (rows : list doc) : doc :=
  Doc (autoname (set_fields (non_null values) ∅) rows) (set_fields (non_null values) ∅).

(** The [result_id] that a row is stored under, when it has an integer one. *)
Definition result_id_of (d : doc) : option Z :=
  match doc_fields d !! "result_id" with
  | Some (VInt n) => Some n
  | _ => None
  end.

(** No two rows share a name. *)
Definition unique_names (rows : list doc) : Prop :=
  forall i j d1 d2,
    rows !! i = Some d1 -> rows !! j = Some d2 -> doc_name d1 = doc_name d2 -> i = j.

(** At most one row per [result_id]. *)
Definition unique_result_ids (rows : list doc) : Prop :=
  forall i j d1 d2 rid,
    rows !! i = Some d1 -> rows !! j = Some d2 ->
    result_id_of d1 = Some rid -> result_id_of d2 = Some rid -> i = j.

(** The state between two requests: no transaction is open and the rows are
    keyed by name and by [result_id]. *)
Definition store_ok (w : world) : Prop :=
  db_session w = db_committed w
  /\ unique_names (db_committed w)
  /\ unique_result_ids (db_committed w).

(** What identifies a row: its name and its [result_id]. *)
Definition row_key (d : doc) : string * option Z := (doc_name d, result_id_of d).

(** A sequence of requests, each with the store calls that fail during it. *)
Fixpoint run `{Host} (calls : list ((store_op -> bool) * request)) (w : world) : world :=
  match calls with
  | [] => w
  | (fails, req) :: rest => run rest (submit_quiz_result fails req w).2
  end.

(** Texts made of decimal digits, and texts without whitespace. *)
Fixpoint all_digits (s : string) : bool :=
  match s with
  | EmptyString => true
  | String c r => is_digit c && all_digits r
  end.

Fixpoint no_spaces (s : string) : bool :=
  match s with
  | EmptyString => true
  | String c r => negb (is_space c) && no_spaces r
  end.

(** ** Sample data *)

(** A raw name under the slug, the name in [custom_field_values]. *)
Definition raw_name_payload : list (string * value) :=
  [("fields", VDict [("quiz_attr_2", VStr "Jane Doe")]);
   ("custom_field_values", VDict [("quiz_attr_2", VStr "J. Doe")])].

(** The empty string under the slug, the name under another key of [fields]
    in an entry that carries the label. *)
Definition empty_raw_payload : list (string * value) :=
  [("fields", VDict [("quiz_attr_2", VStr "");
                     ("other", VDict [("label", VStr "Student's Name");
                                      ("value", VStr "Jane Doe")])])].

(** A name under the slug, another in [custom_field_values]. *)
Definition conflicting_payload : list (string * value) :=
  [("fields", VDict [("quiz_attr_2", VDict [("label", VStr "Student's Name");
                                            ("value", VStr "Jane Doe")])]);
   ("custom_field_values", VDict [("quiz_attr_2", VStr "Someone Else")])].

(** An entry under the slug with an empty value, the name under another key
    of [fields] in an entry that carries the label. *)
Definition shadowed_label_payload : list (string * value) :=
  [("fields", VDict [("quiz_attr_2", VDict [("label", VStr "Student's Name");
                                            ("value", VStr "")]);
                     ("alt", VDict [("label", VStr "Student's Name");
                                    ("value", VStr "Jane Doe")])])].

Definition lookup_fails : store_op -> bool :=
  fun op => match op with OpGetAll => true | _ => false end.

Definition commit_fails : store_op -> bool :=
  fun op => match op with OpCommit => true | _ => false end.

Definition minimal_payload : value :=
  VDict [("result_id", VInt 1); ("quiz_title", VStr "Q")].

Definition infinity_payload : value :=
  VDict [("result_id", VInt 1); ("quiz_title", VStr "Q"); ("extra", VFloat (FInf false))].

Definition zero_id_payload : list (string * value) :=
  [("result_id", VInt 0); ("quiz_title", VStr "Math Quiz")].

Definition unparsable_id_payload : list (string * value) :=
  [("result_id", VStr "abc"); ("quiz_title", VStr "Quiz A")].

(** An empty JSON body and a form map whose sole field holds [{}]. *)
Definition empty_request : request :=
  Request (Raise ValueError) (VDict [("data", VStr "{}")]).

(** An empty JSON body and a form map whose sole field is not JSON text. *)
Definition unparsable_request : request :=
  Request (Raise ValueError) (VDict [("data", VStr "{oops")]).

(** [n] opening brackets. *)
Fixpoint brackets (n : nat) : string :=
  match n with
  | O => ""
  | S n' => String "[" (brackets n')
  end.

(** An empty JSON body and a form map whose sole field opens a thousand
    lists. *)
Definition deep_request : request :=
  Request (Raise ValueError) (VDict [("data", VStr (brackets 1000))]).

Definition stored_row : doc :=
  Doc "PTR-123"
    (list_to_map [("result_id", VInt 123); ("quiz_title", VStr "Math Quiz");
                  ("score_percentage", VFloat (FFin false 45 1))]).

Definition one_row_world : world := World [stored_row] [stored_row] [].

(** A second submission for the same id: a new title, a score that does not
    parse. *)
Definition retake_payload : value :=
  VDict [("result_id", VStr "123"); ("quiz_title", VStr "Math Quiz (retake)");
         ("score_percentage", VStr "abc")].

Definition three_calls : list ((store_op -> bool) * request) :=
  [(no_faults, json_request sample_payload);
   (commit_fails, json_request minimal_payload);
   (no_faults, json_request retake_payload)].

(** A second row, and a store with the two rows. *)
Definition other_row : doc :=
  Doc "PTR-7" (list_to_map [("result_id", VInt 7); ("quiz_title", VStr "Other Quiz")]).

Definition two_row_world : world :=
  World [other_row; stored_row] [other_row; stored_row] [].

(** A payload whose [user] is a plain string. *)
Definition plain_user_payload : list (string * value) :=
  [("result_id", VInt 1); ("quiz_title", VStr "Q"); ("user", VStr "bob")].

(** A [custom_fields] list: a matching entry without a value, a stray string,
    a matching entry with the name. *)
Definition custom_list_payload : list (string * value) :=
  [("custom_fields",
    VList [VDict [("slug", VStr "quiz_attr_2"); ("value", VStr "")];
           VStr "stray";
           VDict [("label", VStr "Student's Name"); ("value", VStr "Jane Doe")]])].

(** * Properties *)

(** ** Coercions *)

Lemma to_int_documented_cases `{Host} :
  _to_int VNone = Ok None /\ _to_int (VStr "") = Ok None
  /\ _to_int (VStr "null") = Ok None /\ _to_int (VStr "42") = Ok (Some 42)
  /\ _to_int (VStr "abc") = Ok None /\ _to_int (VInt 42) = Ok (Some 42).
Proof. repeat split; reflexivity. Qed.

(** Outside the two infinities [_to_int] returns. *)
Lemma to_int_returns_off_infinity `{Host} (v : value) :
  (forall neg, v <> VFloat (FInf neg)) -> exists r, _to_int v = Ok r.
Proof.
  intros Hinf. unfold _to_int. destruct (is_absent v); [eauto|].
  destruct v as [|b|n|f|s|l|d]; simpl; eauto.
  - destruct f; simpl; eauto. by destruct (Hinf neg).
  - destruct (int_of_str s); simpl; eauto.
Qed.

(** C7 (the code departs from the specification): [_to_int] maps the documented
    inputs as specified, but it does raise on an input: the float
    infinity, which [int] refuses with [OverflowError], an exception that the
    [except (TypeError, ValueError)] clause lets through, so that the endpoint
    raises on the body [{"result_id": 1e999, "quiz_title": "Q"}]. *)
Theorem C7_to_int_raises_on_infinity :
  forall H : Host,
    _to_int (VFloat (FInf false)) = Raise OverflowError
    /\ _to_int (VFloat (FInf true)) = Raise OverflowError
    /\ forall fails w,
         submit_quiz_result fails
           (json_request (VDict [("result_id", VFloat (FInf false));
                                 ("quiz_title", VStr "Q")])) w
         = (Raise OverflowError, w).
Proof. intros H. split; [reflexivity|]. split; [reflexivity|]. intros fails w. reflexivity. Qed.

(** Outside the integers too large for a float [_to_float] returns. *)
Lemma to_float_returns_off_big_int `{Host} (v : value) :
  (forall n, v = VInt n -> exists f, float_of_int n = Ok f) ->
  exists r, _to_float v = Ok r.
Proof.
  intros Hbig. unfold _to_float. destruct (is_absent v); [eauto|].
  destruct v as [|b|n|f|s|l|d]; simpl; eauto.
  - destruct (Hbig n eq_refl) as [f ->]. simpl; eauto.
  - destruct (parse_float s); simpl; eauto.
Qed.

(** [_to_datetime] returns for every input: nothing for a falsy value or a
    value that the parser refuses, the formatted timestamp otherwise. *)
Lemma to_datetime_cases `{Host} (v : value) :
  (truthy v = false -> _to_datetime v = None)
  /\ (forall e, get_datetime v = Raise e -> _to_datetime v = None)
  /\ (forall dt, truthy v = true -> get_datetime v = Ok (Some dt) ->
        _to_datetime v = Some (strftime dt)).
Proof.
  unfold _to_datetime. repeat split.
  - by intros ->.
  - intros e ->. by destruct (truthy v).
  - by intros dt -> ->.
Qed.

Lemma pad2_shape (n : nat) :
  (n < 100)%nat ->
  exists a b, pad2 n = String a (String b "") /\ is_digit a = true /\ is_digit b = true.
Proof.
  intros Hn.
  assert (Hall : forallb (fun n => match pad2 n with
                                   | String a (String b EmptyString) => is_digit a && is_digit b
                                   | _ => false
                                   end) (seq 0 100) = true) by (vm_compute; reflexivity).
  rewrite forallb_forall in Hall.
  assert (Hin : In n (seq 0 100)) by (apply in_seq; lia).
  specialize (Hall n Hin).
  destruct (pad2 n) as [|a [|b [|]]]; try discriminate.
  apply andb_true_iff in Hall as [Ha Hb]. eauto.
Qed.

(** A year from 1000 on is written with its four digits. *)
Lemma year_shape (n : nat) :
  (1000 <= n < 10 ^ 4)%nat ->
  exists a b c d, pretty n = String a (String b (String c (String d "")))
    /\ is_digit a = true /\ is_digit b = true /\ is_digit c = true /\ is_digit d = true.
Proof.
  intros Hn.
  assert (Hall : forallb (fun n => match pretty n with
                                   | String a (String b (String c (String d EmptyString))) =>
                                       is_digit a && is_digit b && is_digit c && is_digit d
                                   | _ => false
                                   end) (seq 1000 (10 ^ 4 - 1000)) = true) by (vm_compute; reflexivity).
  rewrite forallb_forall in Hall.
  assert (Hin : In n (seq 1000 (10 ^ 4 - 1000))) by (apply in_seq; lia).
  specialize (Hall n Hin).
  destruct (pretty n) as [|a [|b [|c [|d [|]]]]]; try discriminate.
  repeat (apply andb_true_iff in Hall as [Hall ?]). eauto 10.
Qed.

(** A datetime of a year from 1000 on is written in the shape
    [YYYY-MM-DD HH:MM:SS]. *)
Lemma strftime_shape (dt : datetime) :
  valid_datetime dt -> (1000 <= year dt)%nat -> is_timestamp (strftime dt) = true.
Proof.
  intros (Hy & Hm & Hd & Hh & Hi & Hs) Hy4. unfold strftime.
  destruct (year_shape (year dt)) as (y1 & y2 & y3 & y4 & -> & ? & ? & ? & ?); [lia|].
  destruct (pad2_shape (month dt)) as (m1 & m2 & -> & ? & ?); [lia|].
  destruct (pad2_shape (day dt)) as (d1 & d2 & -> & ? & ?); [lia|].
  destruct (pad2_shape (hour dt)) as (h1 & h2 & -> & ? & ?); [lia|].
  destruct (pad2_shape (minute dt)) as (i1 & i2 & -> & ? & ?); [lia|].
  destruct (pad2_shape (second dt)) as (s1 & s2 & -> & ? & ?); [lia|].
  simpl. repeat (apply andb_true_iff; split); done.
Qed.

Lemma submit_raises_on_big_score `{Host} (n : Z) fails w :
  float_of_int n = Raise OverflowError ->
  submit_quiz_result fails
    (json_request (VDict [("result_id", VInt 1); ("quiz_title", VStr "Q");
                          ("score_percentage", VInt n)])) w
  = (Raise OverflowError, w).
Proof.
  intros Hn. unfold submit_quiz_result, doc_values, bind, lift, json_request. simpl.
  unfold _to_float. simpl. rewrite Hn. reflexivity.
Qed.

(** C8 (the code departs from the specification): [_to_datetime] is total (see
    [to_datetime_cases]) but [_to_float] is not: on an
    integer too large for a float, such as [10^400], [float] raises
    [OverflowError], which the [except (TypeError, ValueError)] clause lets
    through, and the endpoint raises with it. *)
Theorem C8_to_float_raises_on_big_int :
  forall H : Host,
    _to_float (VInt (10 ^ 400)) = Raise OverflowError
    /\ forall fails w,
         submit_quiz_result fails
           (json_request (VDict [("result_id", VInt 1); ("quiz_title", VStr "Q");
                                 ("score_percentage", VInt (10 ^ 400))])) w
         = (Raise OverflowError, w).
Proof.
  intros H.
  assert (Hf : float_of_int (10 ^ 400) = Raise OverflowError)
    by (vm_compute; reflexivity).
  split.
  - unfold _to_float, try_except, rbind, py_float, is_absent. cbn [is_None eq_str orb].
    rewrite Hf. reflexivity.
  - intros fails w. by apply submit_raises_on_big_score.
Qed.

(** ** Custom-value extraction *)

Section Extraction.
Context `{Host}.
Implicit Types (payload fields item : list (string * value)) (slug label : string).

Lemma truthy_dict_get_cons fields slug :
  truthy (dict_get fields slug) = true -> truthy (VDict fields) = true.
Proof. by destruct fields. Qed.

Lemma not_empty_truthy_dict item :
  not_empty (dict_get item "value") = true -> truthy (VDict item) = true.
Proof. by destruct item. Qed.

(** When [fields[slug]] is truthy it is the item, whatever else [fields] holds. *)
Lemma fields_item_truthy fields slug label :
  truthy (dict_get fields slug) = true ->
  fields_item fields slug label = dict_get fields slug.
Proof. unfold fields_item. by intros ->. Qed.

Lemma from_fields_dict payload fields slug label :
  dict_get payload "fields" = VDict fields ->
  from_fields payload slug label =
    match fields_item fields slug label with
    | VDict item =>
        if not_empty (dict_get item "value")
        then Some (py_str (dict_get item "value")) else None
    | _ => None
    end.
Proof.
  intros Hf. unfold from_fields, py_or. rewrite Hf.
  destruct fields as [|kv fields']; [|done]. by cbn.
Qed.

(** The loop over [custom_fields] returns the value of the first entry that
    matches and has a non-empty value. *)
Lemma scan_custom_fields_find (entries : list value) slug label :
  scan_custom_fields entries slug label =
    match List.find (custom_hit slug label) entries with
    | Some (VDict entry) => Some (py_str (dict_get entry "value"))
    | _ => None
    end.
Proof.
  induction entries as [|entry entries IH]; [done|].
  destruct entry as [| | | | | |e]; cbn [scan_custom_fields List.find custom_hit]; try done.
  destruct (eq_str (dict_get e "slug") slug || eq_str (dict_get e "label") label);
    cbn [andb]; [|done].
  by destruct (not_empty (dict_get e "value")).
Qed.

(** The [fields] block gives the non-empty candidate of sources (1) and (2). *)
Lemma from_fields_candidate payload slug label :
  from_fields payload slug label = first_non_empty [fields_candidate payload slug label].
Proof.
  unfold from_fields, fields_candidate, fields_item, py_or.
  destruct (dict_get payload "fields") as [|b|n|f|s|l|fields] eqn:Hf; cbn [truthy].
  - done.
  - by destruct b.
  - by destruct (n =? 0).
  - by destruct f.
  - by destruct (String.eqb s "").
  - by destruct l.
  - replace (if match fields with [] => false | _ => true end
             then VDict fields else VDict []) with (VDict fields)
      by (by destruct fields).
    destruct (truthy (dict_get fields slug)) eqn:Ht.
    + destruct (dict_get fields slug); try done;
        cbn [first_non_empty]; by destruct (not_empty _).
    + destruct (List.find (label_matches label) (List.map snd fields)) as [fv|] eqn:Hfind.
      * destruct fv; try done; cbn [first_non_empty]; by destruct (not_empty _).
      * destruct (dict_get fields slug) as [| | | | | |item] eqn:Hslug; try done;
          destruct item; [done|discriminate Ht].
Qed.

(** The loop over [custom_fields] gives the candidate of source (3). *)
Lemma from_custom_fields_candidate payload slug label :
  from_custom_fields payload slug label
  = first_non_empty [custom_fields_candidate payload slug label].
Proof.
  unfold from_custom_fields, custom_fields_candidate, py_or.
  destruct (dict_get payload "custom_fields") as [|b|n|f|s|l|d] eqn:Hc; cbn [truthy].
  - done.
  - by destruct b.
  - by destruct (n =? 0).
  - by destruct f.
  - by destruct (String.eqb s "").
  - replace (if match l with [] => false | _ => true end then VList l else VList [])
      with (VList l) by (by destruct l).
    rewrite scan_custom_fields_find.
    destruct (List.find (custom_hit slug label) l) as [hit|] eqn:Hfind; [|done].
    apply find_some in Hfind as [_ Hhit].
    destruct hit as [| | | | | |entry]; try done;
      cbn [custom_hit] in Hhit; apply andb_true_iff in Hhit as [_ Hv];
      cbn [first_non_empty]; by rewrite Hv.
  - by destruct d.
Qed.

(** The last block gives the candidate of source (4). *)
Lemma from_custom_field_values_candidate payload slug :
  from_custom_field_values payload slug
  = first_non_empty [custom_field_values_candidate payload slug].
Proof.
  unfold from_custom_field_values, custom_field_values_candidate, py_or.
  destruct (dict_get payload "custom_field_values") as [|b|n|f|s|l|d] eqn:Hc; cbn [truthy].
  - done.
  - by destruct b.
  - by destruct (n =? 0).
  - by destruct f.
  - by destruct (String.eqb s "").
  - by destruct l.
  - replace (if match d with [] => false | _ => true end then VDict d else VDict [])
      with (VDict d) by (by destruct d).
    cbn [first_non_empty]; by destruct (not_empty _).
Qed.

Lemma first_non_empty_cons (candidate : option value) (rest : list (option value)) :
  first_non_empty (candidate :: rest) =
    match first_non_empty [candidate] with
    | Some s => Some s
    | None => first_non_empty rest
    end.
Proof.
  destruct candidate as [v|]; cbn [first_non_empty]; [|done].
  by destruct (not_empty v).
Qed.

Lemma extract_custom_value_order payload slug label :
  _extract_custom_value payload slug label = extraction_order payload slug label.
Proof.
  unfold _extract_custom_value, extraction_order.
  rewrite from_fields_candidate, from_custom_fields_candidate,
    from_custom_field_values_candidate.
  rewrite (first_non_empty_cons (fields_candidate payload slug label) [_; _]).
  by rewrite (first_non_empty_cons (custom_fields_candidate payload slug label) [_]).
Qed.

(** The first entry of a list that matches is the one after a prefix without
    a match. *)
Lemma find_after_misses {A} (f : A -> bool) (before after : list A) (x : A) :
  (forall y, In y before -> f y = false) -> f x = true ->
  List.find f (before ++ x :: after) = Some x.
Proof.
  intros Hbefore Hx. induction before as [|y before IH]; cbn [List.find app].
  - by rewrite Hx.
  - rewrite (Hbefore y) by (by left). apply IH. intros z Hz. apply Hbefore. by right.
Qed.

(** C3, as amended: the four sources are tried in order and the first
    non-empty value is returned as a string, with one proviso: the label scan
    of [fields] runs only when [fields[slug]] is absent or falsy.
    The result is the first non-empty candidate among: the [value] of
    [fields[slug]] when that is truthy, and of the first value of [fields]
    carrying the label otherwise; the [value] of the first entry of
    [custom_fields] that matches the slug or the label with a non-empty value;
    [custom_field_values[slug]]; and it is null when there is none.
    In particular:
    (1) a non-empty [fields[slug].value] wins over every other source, a
    conflicting [custom_field_values[slug]] included; (2) when [fields[slug]]
    is absent or falsy, the first value of [fields] that carries the label
    gives the result if its value is non-empty; when [fields[slug]] is a
    non-empty dict with an empty value, the label scan is skipped and the
    result comes from [custom_fields], then [custom_field_values]; (3) when the
    [fields] block yields nothing, the first entry of [custom_fields] that is a
    dict, matches the slug or the label and has a non-empty value gives the
    result, whatever [custom_field_values] holds; (4) when [custom_fields]
    yields nothing either, the result is [custom_field_values[slug]] if that is
    non-empty, and null if not. *)
Theorem C3_extraction_order payload slug label :
  _extract_custom_value payload slug label = extraction_order payload slug label
  /\ (forall fields item,
        dict_get payload "fields" = VDict fields ->
        dict_get fields slug = VDict item ->
        not_empty (dict_get item "value") = true ->
        _extract_custom_value payload slug label = Some (py_str (dict_get item "value")))
  /\ (forall fields item,
        dict_get payload "fields" = VDict fields ->
        truthy (dict_get fields slug) = false ->
        List.find (label_matches label) (List.map snd fields) = Some (VDict item) ->
        not_empty (dict_get item "value") = true ->
        _extract_custom_value payload slug label = Some (py_str (dict_get item "value")))
  /\ (forall fields item,
        dict_get payload "fields" = VDict fields ->
        dict_get fields slug = VDict item ->
        truthy (VDict item) = true ->
        not_empty (dict_get item "value") = false ->
        _extract_custom_value payload slug label
        = first_non_empty [custom_fields_candidate payload slug label;
                           custom_field_values_candidate payload slug])
  /\ (forall before entry after,
        first_non_empty [fields_candidate payload slug label] = None ->
        dict_get payload "custom_fields" = VList (before ++ VDict entry :: after) ->
        (forall other, In other before -> custom_hit slug label other = false) ->
        eq_str (dict_get entry "slug") slug || eq_str (dict_get entry "label") label = true ->
        not_empty (dict_get entry "value") = true ->
        _extract_custom_value payload slug label = Some (py_str (dict_get entry "value")))
  /\ (first_non_empty [fields_candidate payload slug label;
                       custom_fields_candidate payload slug label] = None ->
      _extract_custom_value payload slug label =
        match dict_get payload "custom_field_values" with
        | VDict values =>
            if not_empty (dict_get values slug)
            then Some (py_str (dict_get values slug)) else None
        | _ => None
        end).
Proof.
  split; [apply extract_custom_value_order|]. repeat split.
  - intros fields item Hf Hslug Hv.
    unfold _extract_custom_value. rewrite (from_fields_dict _ _ _ _ Hf).
    rewrite fields_item_truthy, Hslug.
    + by rewrite Hv.
    + rewrite Hslug. by apply not_empty_truthy_dict.
  - intros fields item Hf Hslug Hfind Hv.
    unfold _extract_custom_value. rewrite (from_fields_dict _ _ _ _ Hf).
    unfold fields_item. rewrite Hslug, Hfind. by rewrite Hv.
  - intros fields item Hf Hslug Ht Hv.
    rewrite extract_custom_value_order. unfold extraction_order.
    rewrite (first_non_empty_cons (fields_candidate payload slug label) [_; _]).
    unfold fields_candidate. rewrite Hf, Hslug, Ht.
    cbn [first_non_empty]. by rewrite Hv.
  - intros before entry after Hnone Hc Hbefore Hmatch Hv.
    rewrite extract_custom_value_order. unfold extraction_order.
    rewrite (first_non_empty_cons (fields_candidate payload slug label) [_; _]), Hnone.
    unfold custom_fields_candidate. rewrite Hc.
    rewrite (find_after_misses _ before after (VDict entry) Hbefore)
      by (cbn [custom_hit]; by rewrite Hmatch, Hv).
    cbn [first_non_empty]. by rewrite Hv.
  - intros Hnone.
    rewrite extract_custom_value_order. unfold extraction_order.
    rewrite (first_non_empty_cons (fields_candidate payload slug label) [_]) in Hnone.
    rewrite (first_non_empty_cons (fields_candidate payload slug label) [_; _]).
    destruct (first_non_empty [fields_candidate payload slug label]); [done|].
    rewrite (first_non_empty_cons (custom_fields_candidate payload slug label) [_]), Hnone.
    unfold custom_field_values_candidate.
    destruct (dict_get payload "custom_field_values"); try done;
      cbn [first_non_empty]; by destruct (not_empty _).
Qed.

(** C10, as amended: a raw (non-dict) value under [fields[slug]] is never
    returned.  When it is truthy the [fields] block ends there and the result
    is that of [custom_fields], then [custom_field_values], else null.  When
    it is falsy the label scan still runs: the first value of [fields] that
    carries the label, a dict, gives the result if its value is non-empty,
    and otherwise the extraction falls through in the same way. *)
Theorem C10_raw_value_skipped payload fields raw slug label :
  dict_get payload "fields" = VDict fields ->
  dict_get fields slug = raw ->
  (forall item, raw <> VDict item) ->
  (truthy raw = true ->
   _extract_custom_value payload slug label = after_fields payload slug label)
  /\ (truthy raw = false ->
      _extract_custom_value payload slug label =
        match List.find (label_matches label) (List.map snd fields) with
        | Some (VDict item) =>
            if not_empty (dict_get item "value")
            then Some (py_str (dict_get item "value"))
            else after_fields payload slug label
        | _ => after_fields payload slug label
        end).
Proof.
  intros Hf Hslug Hraw.
  unfold _extract_custom_value. fold (after_fields payload slug label).
  rewrite (from_fields_dict _ _ _ _ Hf). split; intros Ht.
  - rewrite fields_item_truthy, Hslug by (by rewrite Hslug).
    destruct raw; try done. by destruct (Hraw entries).
  - unfold fields_item. rewrite Hslug, Ht.
    destruct (List.find (label_matches label) (List.map snd fields)) as [fv|] eqn:Hfind.
    + destruct fv as [| | | | | |item]; try done.
      by destruct (not_empty (dict_get item "value")).
    + destruct raw; try done. by destruct (Hraw entries).
Qed.

End Extraction.

Lemma C10_raw_value_skipped_witness :
  _extract_custom_value (H:=example_host) raw_name_payload "quiz_attr_2" "Student's Name"
  = Some "J. Doe".
Proof.
  rewrite (proj1 (C10_raw_value_skipped (H:=example_host) raw_name_payload
                    [("quiz_attr_2", VStr "Jane Doe")] (VStr "Jane Doe")
                    "quiz_attr_2" "Student's Name" eq_refl eq_refl
                    ltac:(discriminate)) eq_refl).
  reflexivity.
Defined.

(** C10 as stated fails on a falsy raw value: with the empty string under the
    slug the label scan still runs, and a dict-shaped entry that carries the
    label gives the result, where the statement has the extraction fall through
    to [custom_fields] and [custom_field_values] (both absent: null). *)
Lemma C10_counterexample :
  dict_get empty_raw_payload "fields"
    = VDict [("quiz_attr_2", VStr "");
             ("other", VDict [("label", VStr "Student's Name");
                              ("value", VStr "Jane Doe")])]
  /\ dict_get [("quiz_attr_2", VStr "");
               ("other", VDict [("label", VStr "Student's Name");
                                ("value", VStr "Jane Doe")])] "quiz_attr_2" = VStr ""
  /\ after_fields (H:=example_host) empty_raw_payload "quiz_attr_2" "Student's Name" = None
  /\ _extract_custom_value (H:=example_host) empty_raw_payload "quiz_attr_2" "Student's Name"
     = Some "Jane Doe".
Proof. repeat split; reflexivity. Qed.

Lemma C3_extraction_order_witness :
  _extract_custom_value (H:=example_host) conflicting_payload "quiz_attr_2" "Student's Name"
  = Some "Jane Doe"
  /\ _extract_custom_value (H:=example_host) custom_list_payload "quiz_attr_2"
       "Student's Name"
     = Some "Jane Doe"
  /\ _extract_custom_value (H:=example_host) raw_name_payload "quiz_attr_2" "Student's Name"
     = Some "J. Doe".
Proof.
  split; [|split].
  - apply (proj1 (proj2 (C3_extraction_order (H:=example_host) conflicting_payload
                           "quiz_attr_2" "Student's Name"))
             [("quiz_attr_2", VDict [("label", VStr "Student's Name");
                                     ("value", VStr "Jane Doe")])]
             [("label", VStr "Student's Name"); ("value", VStr "Jane Doe")]);
      reflexivity.
  - apply (proj1 (proj2 (proj2 (proj2 (proj2
             (C3_extraction_order (H:=example_host) custom_list_payload
                "quiz_attr_2" "Student's Name")))))
             [VDict [("slug", VStr "quiz_attr_2"); ("value", VStr "")]; VStr "stray"]
             [("label", VStr "Student's Name"); ("value", VStr "Jane Doe")] []);
      try reflexivity.
    intros other [<-|[<-|[]]]; reflexivity.
  - rewrite (proj2 (proj2 (proj2 (proj2 (proj2
               (C3_extraction_order (H:=example_host) raw_name_payload
                  "quiz_attr_2" "Student's Name"))))) eq_refl).
    reflexivity.
Defined.

(** C3 as stated fails: [fields[slug]] exists with an empty value, another
    entry of [fields] carries the label with the value "Jane Doe", and the
    extraction returns null, not the label-matched value. *)
Lemma C3_counterexample :
  dict_get shadowed_label_payload "fields"
    = VDict [("quiz_attr_2", VDict [("label", VStr "Student's Name"); ("value", VStr "")]);
             ("alt", VDict [("label", VStr "Student's Name"); ("value", VStr "Jane Doe")])]
  /\ label_matches "Student's Name"
       (VDict [("label", VStr "Student's Name"); ("value", VStr "Jane Doe")]) = true
  /\ _extract_custom_value (H:=example_host) shadowed_label_payload
       "quiz_attr_2" "Student's Name" = None.
Proof. repeat split; reflexivity. Qed.

(** ** The store *)

Section Store.
Context `{Host}.
Implicit Types (w : world) (fails : store_op -> bool) (values : list (string * value)).

Lemma existsb_has_name_find name rows d :
  List.find (has_name name) rows = Some d -> existsb (has_name name) rows = true.
Proof.
  intros Hf. apply existsb_exists. exists d.
  apply find_some in Hf. tauto.
Qed.

Lemma find_has_name_name name rows d :
  List.find (has_name name) rows = Some d -> doc_name d = name.
Proof.
  intros Hf. apply find_some in Hf as [_ Hn]. by apply String.eqb_eq in Hn.
Qed.

(** What [upsert] does, by case: the lookup raises; or the guarded block
    raises and the transaction is rolled back; or the found row is merged and
    saved; or a new row is inserted. *)
Lemma upsert_cases fails result_id values w :
  (fails OpGetAll = true
   /\ upsert fails result_id values w = (Raise StoreError, w))
  \/ (fails OpGetAll = false
      /\ upsert fails result_id values w
         = (Ok (error_response "An unexpected error occurred."), rolled_back w))
  \/ (fails OpGetAll = false
      /\ exists d d0,
           List.find (has_result_id result_id) (db_session w) = Some d
           /\ List.find (has_name (doc_name d)) (db_session w) = Some d0
           /\ upsert fails result_id values w
              = (Ok (success_response (doc_name d) result_id),
                 let rows := replace_row (merged d0 values) (db_session w) in
                 World rows rows (error_log w)))
  \/ (fails OpGetAll = false
      /\ List.find (has_result_id result_id) (db_session w) = None
      /\ existsb (has_name (doc_name (created values (db_session w)))) (db_session w) = false
      /\ upsert fails result_id values w
         = (Ok (success_response (doc_name (created values (db_session w))) result_id),
            let rows := db_session w ++ [created values (db_session w)] in
            World rows rows (error_log w))).
Proof.
  unfold upsert, get_all, bind, guard, try_catch.
  destruct (fails OpGetAll) eqn:Hga; [by left|right].
  destruct (List.find (has_result_id result_id) (db_session w)) as [d|] eqn:Hfind.
  - unfold get_doc, doc_update, doc_save, db_commit, bind, guard, ret.
    destruct (fails OpGetDoc); [by left|].
    destruct (List.find (has_name (doc_name d)) (db_session w)) as [d0|] eqn:Hname;
      [|by left].
    destruct (fails OpUpdate); [by left|].
    cbn [doc_name].
    rewrite (find_has_name_name _ _ _ Hname).
    destruct (fails OpSave); [by left|].
    rewrite (existsb_has_name_find _ _ _ Hname).
    cbn [db_session db_committed error_log].
    destruct (fails OpCommit); [by left|].
    right; left. split; [done|]. exists d, d0. repeat split; try done.
    unfold replace_row, merged. cbn [doc_name].
    by rewrite (find_has_name_name _ _ _ Hname).
  - unfold new_doc, doc_update, doc_insert, db_commit, bind, guard, ret.
    destruct (fails OpNewDoc); [by left|].
    destruct (fails OpUpdate); [by left|].
    destruct (fails OpInsert); [by left|].
    cbn [doc_fields doc_name].
    fold (created values (db_session w)).
    destruct (existsb _ (db_session w)) eqn:Hex; [by left|].
    cbn [db_session db_committed error_log].
    destruct (fails OpCommit); [by left|].
    right; right. repeat split; try done.
Qed.

(** A failure inside the [try] block is caught: the transaction is rolled
    back, the error is logged and the generic message is returned. *)
Lemma upsert_guarded_failure fails result_id values w :
  fails OpGetAll = false ->
  match List.find (has_result_id result_id) (db_session w) with
  | Some _ => fails OpGetDoc || fails OpUpdate || fails OpSave || fails OpCommit
  | None => fails OpNewDoc || fails OpUpdate || fails OpInsert || fails OpCommit
  end = true ->
  upsert fails result_id values w
  = (Ok (error_response "An unexpected error occurred."), rolled_back w).
Proof.
  intros Hga Hop.
  unfold upsert, get_all, bind, guard, try_catch. rewrite Hga.
  destruct (List.find (has_result_id result_id) (db_session w)) as [d|] eqn:Hfind.
  - unfold get_doc, doc_update, doc_save, db_commit, bind, guard, ret.
    destruct (fails OpGetDoc); [done|].
    destruct (List.find (has_name (doc_name d)) (db_session w)) as [d0|] eqn:Hname; [|done].
    destruct (fails OpUpdate); [done|].
    destruct (fails OpSave); [done|].
    cbn [doc_name]. rewrite (find_has_name_name _ _ _ Hname).
    rewrite (existsb_has_name_find _ _ _ Hname).
    destruct (fails OpCommit); [done|]. discriminate.
  - unfold new_doc, doc_update, doc_insert, db_commit, bind, guard, ret.
    destruct (fails OpNewDoc); [done|].
    destruct (fails OpUpdate); [done|].
    destruct (fails OpInsert); [done|].
    destruct (existsb _ (db_session w)); [done|].
    destruct (fails OpCommit); [done|]. discriminate.
Qed.

(** What the two [except (TypeError, ValueError)] clauses of [_load_payload]
    let through is neither of the two. *)
Lemma try_except_cases {A} (body : result A) (fallback : A) :
  (exists a, try_except [TypeError; ValueError] body (Ok fallback) = Ok a)
  \/ (exists e, body = Raise e /\ e <> TypeError /\ e <> ValueError
                /\ try_except [TypeError; ValueError] body (Ok fallback) = Raise e).
Proof.
  destruct body as [a|e]; [left; by eexists|].
  destruct e; cbn; first [left; by eexists | right; by eexists].
Qed.

(** [_load_payload] returns, or raises what [json.loads] or [json.dumps]
    raised on a form map: an exception other than [TypeError] and
    [ValueError]. *)
Lemma load_payload_cases req :
  (exists payload, _load_payload req = Ok payload)
  \/ (exists e fd,
        _load_payload req = Raise e /\ e <> TypeError /\ e <> ValueError
        /\ form_dict req = VDict fd /\ fd <> []
        /\ (forall data, get_json req = Ok data -> truthy data = false)).
Proof.
  unfold _load_payload.
  assert (Hform :
    (exists payload,
       (if truthy (form_dict req) then
          match form_dict req with
          | VDict fd =>
              match fd with
              | [(_, VStr sole_value)] =>
                  try_except [TypeError; ValueError] (json_loads sole_value) (Ok (VDict []))
              | _ =>
                  try_except [TypeError; ValueError]
                    (rbind (json_dumps_default (VDict fd)) json_loads) (Ok (VDict []))
              end
          | _ => Ok (VDict [])
          end
        else Ok (VDict [])) = Ok payload)
    \/ (exists e fd,
          (if truthy (form_dict req) then
             match form_dict req with
             | VDict fd =>
                 match fd with
                 | [(_, VStr sole_value)] =>
                     try_except [TypeError; ValueError] (json_loads sole_value)
                       (Ok (VDict []))
                 | _ =>
                     try_except [TypeError; ValueError]
                       (rbind (json_dumps_default (VDict fd)) json_loads) (Ok (VDict []))
                 end
             | _ => Ok (VDict [])
             end
           else Ok (VDict [])) = Raise e
          /\ e <> TypeError /\ e <> ValueError /\ form_dict req = VDict fd /\ fd <> [])).
  { destruct (truthy (form_dict req)) eqn:Ht; [|left; by eexists].
    destruct (form_dict req) as [| | | | |?|fd]; try (left; by eexists).
    assert (Hfd : fd <> []) by (by destruct fd).
    assert (Hcase : forall body : result value,
      (exists payload, try_except [TypeError; ValueError] body (Ok (VDict [])) = Ok payload)
      \/ (exists e fd',
            try_except [TypeError; ValueError] body (Ok (VDict [])) = Raise e
            /\ e <> TypeError /\ e <> ValueError /\ VDict fd = VDict fd' /\ fd' <> [])).
    { intros body. destruct (try_except_cases body (VDict [])) as [?|(e & _ & ? & ? & ?)];
        [by left|right]. by exists e, fd. }
    destruct fd as [|[k v] [|kv rest]]; [apply Hcase| |]; destruct v; apply Hcase. }
  destruct (get_json req) as [data|e0] eqn:Hdirect.
  - destruct (truthy data) eqn:Hdata; [left; by eexists|].
    destruct Hform as [?|(e & fd & ? & ? & ? & ? & ?)]; [by left|right].
    exists e, fd. repeat split; try done. by intros data' [= <-].
  - destruct Hform as [?|(e & fd & ? & ? & ? & ? & ?)]; [by left|right].
    exists e, fd. repeat split; done.
Qed.

(** The derivation of [doc_values] does not touch the world. *)
Lemma doc_values_world payload result_id quiz_title w :
  (doc_values payload result_id quiz_title w).2 = w.
Proof.
  unfold doc_values, bind, lift, ret.
  repeat match goal with
    | |- context [match ?r with Ok _ => _ | Raise _ => _ end] => destruct r; simpl
    end; reflexivity.
Qed.

Lemma doc_values_returns payload result_id quiz_title w values w' :
  doc_values payload result_id quiz_title w = (Ok values, w') ->
  w' = w
  /\ values.*1 = ["result_id"; "quiz_id"; "quiz_title"; "score_percentage"; "final_score";
                  "score_by"; "score_type"; "points"; "duration_seconds"; "start_time";
                  "end_time"; "submitted_at"; "student_name"; "student_id"; "tester_name";
                  "user_email"; "user_phone"; "user_ip"; "integration_source";
                  "raw_payload"]
  /\ dict_get values "result_id" = VInt result_id
  /\ dict_get values "raw_payload" = VStr (json_dumps (VDict payload)).
Proof.
  unfold doc_values, bind, lift, ret.
  repeat match goal with
    | |- context [match ?r with Ok _ => _ | Raise _ => _ end] => destruct r; simpl
    end; intros [= <- <-] || discriminate.
  repeat split.
Qed.

(** The endpoint on a payload that is a non-empty dict. *)
Lemma submit_on_dict fails req p w :
  _load_payload req = Ok (VDict p) ->
  truthy (VDict p) = true ->
  submit_quiz_result fails req w =
    match _to_int (dict_get p "result_id") with
    | Raise e => (Raise e, w)
    | Ok None => (Ok (error_response "Both result_id and quiz_title are required."), w)
    | Ok (Some rid) =>
        if (rid =? 0) || negb (truthy (dict_get p "quiz_title")) then
          (Ok (error_response "Both result_id and quiz_title are required."), w)
        else
          match doc_values p rid (dict_get p "quiz_title") w with
          | (Ok values, _) => upsert fails rid values w
          | (Raise e, _) => (Raise e, w)
          end
    end.
Proof.
  intros Hload Ht. unfold submit_quiz_result, bind, lift, ret.
  rewrite Hload, Ht. cbn [negb py_get].
  destruct (_to_int (dict_get p "result_id")) as [[rid|]|e]; try reflexivity.
  cbn [of_int truthy]. rewrite negb_involutive.
  destruct ((rid =? 0) || negb (truthy (dict_get p "quiz_title"))); [reflexivity|].
  pose proof (doc_values_world p rid (dict_get p "quiz_title") w) as Hw.
  destruct (doc_values p rid (dict_get p "quiz_title") w) as [[values|e] w']; simpl in Hw;
    by subst w'.
Qed.

(** The endpoint on a truthy payload that is not a dict: [payload.get] raises. *)
Lemma submit_on_non_dict fails req payload w :
  _load_payload req = Ok payload ->
  truthy payload = true ->
  (forall p, payload <> VDict p) ->
  submit_quiz_result fails req w = (Raise AttributeError, w).
Proof.
  intros Hload Ht Hnd. unfold submit_quiz_result, bind, lift, ret.
  rewrite Hload, Ht. destruct payload; try done. by destruct (Hnd entries).
Qed.

(** When [_load_payload] raises, the endpoint raises with it. *)
Lemma submit_on_load_raise fails req e w :
  _load_payload req = Raise e -> submit_quiz_result fails req w = (Raise e, w).
Proof. intros Hload. unfold submit_quiz_result, bind, lift. by rewrite Hload. Qed.

(** C1, as amended: on a resolved payload that is a non-empty dict, the
    endpoint returns the required-fields error, the world unchanged, exactly
    when the coercion of [result_id] returns and either the coerced
    [result_id] is null or 0 or [quiz_title] is falsy (absent, null, empty
    string, 0, false or an empty container); so a payload whose [result_id]
    coerces to a non-zero integer and whose [quiz_title] is truthy passes the
    validation. *)
Theorem C1_required_fields fails req p w :
  _load_payload req = Ok (VDict p) ->
  truthy (VDict p) = true ->
  submit_quiz_result fails req w
    = (Ok (error_response "Both result_id and quiz_title are required."), w)
  <-> exists r, _to_int (dict_get p "result_id") = Ok r
                /\ (r = None \/ r = Some 0 \/ truthy (dict_get p "quiz_title") = false).
Proof.
  intros Hload Ht. rewrite (submit_on_dict _ _ _ _ Hload Ht).
  destruct (_to_int (dict_get p "result_id")) as [[rid|]|e].
  - destruct (Z.eqb_spec rid 0) as [->|Hrid]; cbn [orb].
    + split; [eauto 6|done].
    + destruct (truthy (dict_get p "quiz_title")) eqn:Htitle; cbn [negb].
      * split.
        -- intros Hsub. exfalso.
           pose proof (doc_values_world p rid (dict_get p "quiz_title") w) as Hw.
           destruct (doc_values p rid (dict_get p "quiz_title") w) as [[values|e] w'];
             [|discriminate].
           destruct (upsert_cases fails rid values w)
             as [[_ Hu]|[[_ Hu]|[(_ & d & d0 & _ & _ & Hu)|(_ & _ & _ & Hu)]]];
             rewrite Hu in Hsub; discriminate.
        -- intros (r & [= <-] & [?|[[= ?]|?]]); done.
      * split; [eauto 6|done].
  - split; [eauto|done].
  - split; [discriminate|]. intros (r & ? & _); discriminate.
Qed.

(** An [except (TypeError, ValueError)] clause turns a caught failure or a
    falsy value of its body into a falsy payload. *)
Lemma caught_or_falsy (body : result value) :
  match body with
  | Ok v => truthy v = false
  | Raise e => e = TypeError \/ e = ValueError
  end ->
  exists payload,
    try_except [TypeError; ValueError] body (Ok (VDict [])) = Ok payload
    /\ truthy payload = false.
Proof.
  destruct body as [v|e]; [by exists v|].
  intros [->| ->]; by eexists.
Qed.

(** When the direct parse raises or yields a falsy value, the sole string of
    the form map does not parse (a [ValueError]) or parses to a falsy value,
    and the reinterpretation of the whole form map fails with a [TypeError] or
    a [ValueError] or yields a falsy value, the endpoint answers
    "Missing payload." and the world is unchanged. *)
Theorem missing_payload_on_caught_failure fails req w :
  (forall data, get_json req = Ok data -> truthy data = false) ->
  (forall key s, form_dict req = VDict [(key, VStr s)] ->
     match json_loads s with
     | Ok v => truthy v = false
     | Raise e => e = TypeError \/ e = ValueError
     end) ->
  (forall fd, form_dict req = VDict fd ->
     (forall key t, fd <> [(key, VStr t)]) ->
     match rbind (json_dumps_default (VDict fd)) json_loads with
     | Ok v => truthy v = false
     | Raise e => e = TypeError \/ e = ValueError
     end) ->
  submit_quiz_result fails req w = (Ok (error_response "Missing payload."), w).
Proof.
  intros Hdirect Hsole Hwhole.
  assert (Hfalsy : exists payload, _load_payload req = Ok payload /\ truthy payload = false).
  { unfold _load_payload. destruct req as [direct form]. cbn [get_json form_dict] in *.
    assert (Hform : exists payload,
              (if truthy form then
                 match form with
                 | VDict fd =>
                     match fd with
                     | [(_, VStr sole_value)] =>
                         try_except [TypeError; ValueError]
                           (json_loads sole_value) (Ok (VDict []))
                     | _ =>
                         try_except [TypeError; ValueError]
                           (rbind (json_dumps_default (VDict fd)) json_loads)
                           (Ok (VDict []))
                     end
                 | _ => Ok (VDict [])
                 end
               else Ok (VDict [])) = Ok payload /\ truthy payload = false).
    { destruct (truthy form); [|by eexists].
      destruct form as [| | | | |?|fd]; try (by eexists).
      destruct fd as [|[k v] [|kv rest]].
      - apply caught_or_falsy. by apply Hwhole.
      - destruct v; try (apply caught_or_falsy; by apply Hwhole).
        apply caught_or_falsy. by apply (Hsole k).
      - destruct v; apply caught_or_falsy; by apply Hwhole. }
    destruct direct as [data|e]; [|exact Hform].
    by rewrite (Hdirect data eq_refl). }
  destruct Hfalsy as (payload & Hload & Ht).
  unfold submit_quiz_result, bind, lift, ret. by rewrite Hload, Ht.
Qed.

(** C9 (the code departs from the specification): the parse of the sole form
    field is guarded by [except (TypeError, ValueError)] only, where the direct
    parse is guarded by [except Exception].  When the direct parse yields
    nothing and [json.loads] gives up on the sole form field with a
    [RecursionError] (a text nested deeper than the interpreter's stack
    allows), the second strategy has failed, but the exception leaves
    [_load_payload] and the endpoint raises: it does not answer
    "Missing payload.".  The world is unchanged. *)
Theorem C9_recursion_error_escapes fails req key s w :
  (forall data, get_json req = Ok data -> truthy data = false) ->
  form_dict req = VDict [(key, VStr s)] ->
  json_loads s = Raise RecursionError ->
  _load_payload req = Raise RecursionError
  /\ submit_quiz_result fails req w = (Raise RecursionError, w).
Proof.
  intros Hdirect Hform Hloads.
  assert (Hload : _load_payload req = Raise RecursionError).
  { unfold _load_payload. rewrite Hform. cbn [truthy]. rewrite Hloads. cbn.
    destruct (get_json req) as [data|e]; [|done].
    by rewrite (Hdirect data eq_refl). }
  split; [done|]. by apply submit_on_load_raise.
Qed.

(** *** The merge *)

Lemma dict_get_absent values key :
  key ∉ values.*1 -> dict_get values key = VNone.
Proof.
  induction values as [|[k v] values IH]; [done|].
  cbn. intros Hk. apply not_elem_of_cons in Hk as [Hne Hk].
  destruct (String.eqb_spec k key); [congruence|auto].
Qed.

Lemma non_null_cons k v values :
  non_null ((k, v) :: values)
  = if is_None v then non_null values else (k, v) :: non_null values.
Proof. unfold non_null. cbn. by destruct (is_None v). Qed.

Lemma non_null_keys values key :
  key ∈ (non_null values).*1 -> key ∈ values.*1.
Proof.
  induction values as [|[k v] values IH]; [done|].
  rewrite non_null_cons. destruct (is_None v); cbn [fmap list_fmap fst];
    rewrite ?elem_of_cons; intuition.
Qed.

Lemma non_null_NoDup values :
  NoDup (values.*1) -> NoDup ((non_null values).*1).
Proof.
  induction values as [|[k v] values IH]; [done|].
  rewrite non_null_cons. cbn [fmap list_fmap fst].
  intros [Hk Hnd]%NoDup_cons. destruct (is_None v); [auto|].
  cbn [fmap list_fmap fst]. apply NoDup_cons. split; [|auto].
  intros Hin. by apply Hk, non_null_keys.
Qed.

Lemma dict_get_non_null values key :
  NoDup (values.*1) -> dict_get (non_null values) key = dict_get values key.
Proof.
  induction values as [|[k v] values IH]; [done|].
  rewrite non_null_cons. cbn [fmap list_fmap fst dict_get].
  intros [Hk Hnd]%NoDup_cons.
  destruct (is_None v) eqn:Hv; cbn [dict_get]; rewrite IH by done; [|done].
  destruct (String.eqb_spec k key) as [->|]; [|done].
  destruct v; try done. by apply dict_get_absent.
Qed.

(** A key of the non-null values has a non-null value. *)
Lemma non_null_key_value values key :
  key ∈ (non_null values).*1 -> is_None (dict_get (non_null values) key) = false.
Proof.
  induction values as [|[k v] values IH]; [by inversion 1|].
  rewrite non_null_cons. destruct (is_None v) eqn:Hv; [done|].
  cbn [fmap list_fmap fst dict_get].
  destruct (String.eqb_spec k key) as [->|Hne]; [done|].
  intros [?|?]%elem_of_cons; [congruence|auto].
Qed.

Lemma set_fields_lookup values fields key :
  NoDup (values.*1) ->
  set_fields values fields !! key =
    if decide (key ∈ values.*1) then Some (dict_get values key) else fields !! key.
Proof.
  revert fields. induction values as [|[k v] values IH]; intros fields Hnd; [done|].
  apply NoDup_cons in Hnd as [Hk Hnd].
  cbn. unfold set_fields in IH. rewrite IH by done. cbn.
  destruct (String.eqb_spec k key) as [->|Hne].
  - rewrite decide_False by done. rewrite decide_True by (apply elem_of_cons; by left).
    by rewrite lookup_insert_eq.
  - destruct (decide (key ∈ values.*1)) as [Hin|Hnin].
    + rewrite decide_True; [done|]. apply elem_of_cons. by right.
    + rewrite decide_False; [by rewrite lookup_insert_ne|].
      intros [?|?]%elem_of_cons; congruence.
Qed.

(** The merge of the non-null values: a key whose derived value is null (or
    that is not derived) keeps the stored value, the others take the derived
    value. *)
Lemma merge_lookup values fields key :
  NoDup (values.*1) ->
  set_fields (non_null values) fields !! key =
    if is_None (dict_get values key) then fields !! key else Some (dict_get values key).
Proof.
  intros Hnd. rewrite set_fields_lookup by by apply non_null_NoDup.
  rewrite <- (dict_get_non_null values key Hnd).
  destruct (decide (key ∈ (non_null values).*1)) as [Hin|Hnin].
  - by rewrite (non_null_key_value _ _ Hin).
  - by rewrite (dict_get_absent _ _ Hnin).
Qed.

(** *** Rows and their keys *)

Lemma has_result_id_spec rid d :
  has_result_id rid d = true <-> result_id_of d = Some rid.
Proof.
  unfold has_result_id, result_id_of.
  destruct (doc_fields d !! "result_id") as [[]|]; try (split; [discriminate|done]).
  rewrite Z.eqb_eq. split; congruence.
Qed.

Lemma has_name_spec name d : has_name name d = true <-> doc_name d = name.
Proof. apply String.eqb_eq. Qed.

Lemma find_lookup (P : doc -> bool) rows d :
  List.find P rows = Some d -> exists i, rows !! i = Some d /\ P d = true.
Proof.
  intros [Hin HP]%find_some. apply list_elem_of_In, list_elem_of_lookup in Hin as [i Hi].
  eauto.
Qed.

Lemma find_none_lookup (P : doc -> bool) rows i d :
  List.find P rows = None -> rows !! i = Some d -> P d = false.
Proof.
  intros Hnone Hi. eapply find_none; [done|].
  apply list_elem_of_In. by eapply list_elem_of_lookup_2.
Qed.

Lemma existsb_false_lookup (P : doc -> bool) rows i d :
  existsb P rows = false -> rows !! i = Some d -> P d = false.
Proof.
  intros Hex Hi. destruct (P d) eqn:HP; [|done].
  rewrite <- Hex. symmetry. apply existsb_exists. exists d. split; [|done].
  apply list_elem_of_In. by eapply list_elem_of_lookup_2.
Qed.

Lemma result_id_of_set_fields values fields rid :
  NoDup (values.*1) ->
  dict_get values "result_id" = VInt rid ->
  result_id_of (Doc "" (set_fields (non_null values) fields)) = Some rid.
Proof.
  intros Hnd Hrid. unfold result_id_of. cbn [doc_fields].
  by rewrite merge_lookup, Hrid.
Qed.

Lemma result_id_of_merged d values rid :
  NoDup (values.*1) -> dict_get values "result_id" = VInt rid ->
  result_id_of (merged d values) = Some rid.
Proof. apply result_id_of_set_fields. Qed.

Lemma result_id_of_created values rows rid :
  NoDup (values.*1) -> dict_get values "result_id" = VInt rid ->
  result_id_of (created values rows) = Some rid.
Proof. apply result_id_of_set_fields. Qed.

(** With unique names, the row found by [result_id] is the row that
    [get_doc] then loads by name. *)
Lemma found_row_is_loaded rows rid d d0 :
  unique_names rows ->
  List.find (has_result_id rid) rows = Some d ->
  List.find (has_name (doc_name d)) rows = Some d0 ->
  d0 = d.
Proof.
  intros Hun [i [Hi _]]%find_lookup [j [Hj Hn]]%find_lookup.
  apply has_name_spec in Hn.
  assert (j = i) as -> by eauto. congruence.
Qed.

Lemma replace_row_lookup d rows i :
  replace_row d rows !! i
  = (fun d' => if has_name (doc_name d) d' then d else d') <$> rows !! i.
Proof. unfold replace_row. apply list_lookup_fmap. Qed.

(** Saving the merged row changes no key. *)
Lemma replace_row_keys rows d values rid :
  unique_names rows ->
  NoDup (values.*1) -> dict_get values "result_id" = VInt rid ->
  List.find (has_result_id rid) rows = Some d ->
  row_key <$> replace_row (merged d values) rows = row_key <$> rows.
Proof.
  intros Hun Hnd Hrid Hfind.
  destruct (find_lookup _ _ _ Hfind) as (j & Hj & Hd%has_result_id_spec).
  apply list_eq. intros i. rewrite !list_lookup_fmap, replace_row_lookup.
  destruct (rows !! i) as [r|] eqn:Hi; [|done]. cbn.
  destruct (has_name (doc_name d) r) eqn:Hn; [|done].
  apply has_name_spec in Hn. assert (i = j) as -> by eauto.
  assert (r = d) as -> by congruence.
  unfold row_key. by rewrite (result_id_of_merged _ _ _ Hnd Hrid), Hd.
Qed.

Lemma unique_names_keys rows rows' :
  row_key <$> rows' = row_key <$> rows -> unique_names rows -> unique_names rows'.
Proof.
  intros Hk Hun i j d1 d2 Hi Hj Hn.
  assert (Hi' : (row_key <$> rows) !! i = Some (row_key d1))
    by (by rewrite <- Hk, list_lookup_fmap, Hi).
  assert (Hj' : (row_key <$> rows) !! j = Some (row_key d2))
    by (by rewrite <- Hk, list_lookup_fmap, Hj).
  rewrite list_lookup_fmap in Hi', Hj'.
  destruct (rows !! i) as [r1|] eqn:Hr1; [|done].
  destruct (rows !! j) as [r2|] eqn:Hr2; [|done].
  injection Hi' as Hn1 _. injection Hj' as Hn2 _.
  eapply (Hun i j r1 r2); [done..|congruence].
Qed.

Lemma unique_result_ids_keys rows rows' :
  row_key <$> rows' = row_key <$> rows ->
  unique_result_ids rows -> unique_result_ids rows'.
Proof.
  intros Hk Hun i j d1 d2 rid Hi Hj H1 H2.
  assert (Hi' : (row_key <$> rows) !! i = Some (row_key d1))
    by (by rewrite <- Hk, list_lookup_fmap, Hi).
  assert (Hj' : (row_key <$> rows) !! j = Some (row_key d2))
    by (by rewrite <- Hk, list_lookup_fmap, Hj).
  rewrite list_lookup_fmap in Hi', Hj'.
  destruct (rows !! i) as [r1|] eqn:Hr1; [|done].
  destruct (rows !! j) as [r2|] eqn:Hr2; [|done].
  injection Hi' as _ Hn1. injection Hj' as _ Hn2.
  eapply (Hun i j r1 r2 rid); [done..|congruence|congruence].
Qed.

Lemma unique_names_snoc rows d :
  unique_names rows ->
  existsb (has_name (doc_name d)) rows = false ->
  unique_names (rows ++ [d]).
Proof.
  intros Hun Hfresh i j d1 d2 Hi Hj Hn.
  apply lookup_snoc_Some in Hi as [[Hil Hi]|[-> <-]];
    apply lookup_snoc_Some in Hj as [[Hjl Hj]|[-> <-]]; try done.
  - eauto.
  - pose proof (existsb_false_lookup _ _ _ _ Hfresh Hi) as Hf.
    apply has_name_spec in Hn. congruence.
  - pose proof (existsb_false_lookup _ _ _ _ Hfresh Hj) as Hf.
    symmetry in Hn. apply has_name_spec in Hn. congruence.
Qed.

Lemma unique_result_ids_snoc rows d rid :
  unique_result_ids rows ->
  List.find (has_result_id rid) rows = None ->
  result_id_of d = Some rid ->
  unique_result_ids (rows ++ [d]).
Proof.
  intros Hun Hnone Hd i j d1 d2 rid' Hi Hj H1 H2.
  apply lookup_snoc_Some in Hi as [[Hil Hi]|[-> <-]];
    apply lookup_snoc_Some in Hj as [[Hjl Hj]|[-> <-]]; try done.
  - eauto.
  - pose proof (find_none_lookup _ _ _ _ Hnone Hi) as Hf.
    assert (rid' = rid) as -> by congruence.
    apply has_result_id_spec in H1. congruence.
  - pose proof (find_none_lookup _ _ _ _ Hnone Hj) as Hf.
    assert (rid' = rid) as -> by congruence.
    apply has_result_id_spec in H2. congruence.
Qed.

(** *** One request *)

Lemma doc_values_keys_NoDup payload rid quiz_title w values w' :
  doc_values payload rid quiz_title w = (Ok values, w') -> NoDup (values.*1).
Proof.
  intros (_ & -> & _)%doc_values_returns.
  apply (bool_decide_unpack _). by vm_compute.
Qed.

(** A request leaves the world alone or runs [upsert] on derived values. *)
Lemma submit_effect fails req w :
  (submit_quiz_result fails req w).2 = w
  \/ exists p rid values,
       _load_payload req = Ok (VDict p)
       /\ doc_values p rid (dict_get p "quiz_title") w = (Ok values, w)
       /\ submit_quiz_result fails req w = upsert fails rid values w.
Proof.
  destruct (load_payload_cases req) as [[payload Hload]|(e & _ & Hload & _)];
    [|left; by rewrite (submit_on_load_raise _ _ _ _ Hload)].
  destruct (truthy payload) eqn:Ht.
  - destruct payload as [| | | | | |p];
      try (left; rewrite (submit_on_non_dict _ _ _ _ Hload Ht); done).
    rewrite (submit_on_dict _ _ _ _ Hload Ht).
    destruct (_to_int (dict_get p "result_id")) as [[rid|]|e]; try by left.
    destruct ((rid =? 0) || negb (truthy (dict_get p "quiz_title"))); [by left|].
    pose proof (doc_values_world p rid (dict_get p "quiz_title") w) as Hw.
    destruct (doc_values p rid (dict_get p "quiz_title") w) as [[values|e] w'] eqn:Hdv;
      [|by left].
    cbn in Hw. subst w'. right. by exists p, rid, values.
  - left. unfold submit_quiz_result, bind, lift, ret. by rewrite Hload, Ht.
Qed.

Lemma upsert_step fails rid values w :
  store_ok w -> NoDup (values.*1) -> dict_get values "result_id" = VInt rid ->
  store_ok (upsert fails rid values w).2
  /\ (row_key <$> db_committed w) `prefix_of`
       (row_key <$> db_committed (upsert fails rid values w).2)
  /\ (forall d, List.find (has_result_id rid) (db_committed w) = Some d ->
        row_key <$> db_committed (upsert fails rid values w).2
        = row_key <$> db_committed w).
Proof.
  intros (Hs & Hnames & Hids) Hnd Hrid.
  destruct (upsert_cases fails rid values w)
    as [[_ ->]|[[_ ->]|[(_ & d & d0 & Hfind & Hname & ->)|(_ & Hfind & Hfresh & ->)]]];
    cbn [snd rolled_back db_committed db_session].
  - done.
  - done.
  - rewrite Hs in *.
    assert (d0 = d) as -> by by eapply found_row_is_loaded.
    pose proof (replace_row_keys _ _ _ _ Hnames Hnd Hrid Hfind) as Hk.
    repeat split; try done.
    + by eapply unique_names_keys.
    + by eapply unique_result_ids_keys.
    + by rewrite Hk.
  - rewrite Hs in *. repeat split; try done.
    + by apply unique_names_snoc.
    + eapply unique_result_ids_snoc; [done..|]. by apply result_id_of_created.
    + rewrite fmap_app. by apply prefix_app_r.
    + intros d Hd. congruence.
Qed.

Lemma submit_step fails req w :
  store_ok w ->
  store_ok (submit_quiz_result fails req w).2
  /\ (row_key <$> db_committed w) `prefix_of`
       (row_key <$> db_committed (submit_quiz_result fails req w).2).
Proof.
  intros Hok.
  destruct (submit_effect fails req w) as [->|(p & rid & values & _ & Hdv & ->)]; [done|].
  pose proof (doc_values_keys_NoDup _ _ _ _ _ _ Hdv) as Hnd.
  apply doc_values_returns in Hdv as (_ & _ & Hrid & _).
  destruct (upsert_step fails rid values w Hok Hnd Hrid) as (? & ? & _). done.
Qed.



Lemma find_is_Some (P : doc -> bool) rows i d :
  rows !! i = Some d -> P d = true -> exists d', List.find P rows = Some d'.
Proof.
  intros Hi HP. destruct (List.find P rows) as [d'|] eqn:Hf; [eauto|].
  pose proof (find_none_lookup _ _ _ _ Hf Hi). congruence.
Qed.



End Store.

(** ** Evaluations *)

(** C2 (the code departs from the specification): the lookup [frappe.get_all] is
    called before the [try] block, so when it raises, the exception reaches
    the caller: no rollback, no log entry, no error response.  (A failure
    inside the block is handled as specified, see
    [upsert_guarded_failure].) *)
Theorem C2_lookup_failure_escapes :
  forall (H : Host) w,
    submit_quiz_result lookup_fails (json_request minimal_payload) w
    = (Raise StoreError, w).
Proof. intros H w. reflexivity. Qed.

(** A failing commit, by contrast, is caught and rolled back. *)
Example commit_failure_is_caught :
  submit_quiz_result (H:=example_host) commit_fails (json_request minimal_payload) empty_world
  = (Ok (error_response "An unexpected error occurred."),
     World [] [] ["Placement Test Result API Error"]).
Proof. vm_compute. reflexivity. Qed.

(** C6 (the code departs from the specification): a payload can hold a float infinity
    (the body [{"result_id":1,"quiz_title":"Q","extra":1e999}] parses to one);
    [json.dumps] writes it as the bare word [Infinity], so the [raw_payload]
    that is stored is not JSON text. *)
Theorem C6_raw_payload_not_json :
  forall H : Host,
    json_dumps infinity_payload
    = "{" +:+ quoted "result_id" +:+ ":1," +:+ quoted "quiz_title" +:+ ":" +:+ quoted "Q"
      +:+ "," +:+ quoted "extra" +:+ ":Infinity}"
    /\ json_valid (json_dumps infinity_payload) = false
    /\ (submit_quiz_result (H:=example_host) no_faults
          (json_request infinity_payload) empty_world).1
       = Ok (success_response "PTR-1" 1)
    /\ (fun d => doc_fields d !! "raw_payload") <$>
         db_committed (submit_quiz_result (H:=example_host) no_faults
                         (json_request infinity_payload) empty_world).2
       = [Some (VStr (json_dumps (H:=example_host) infinity_payload))].
Proof. intros H. repeat split; vm_compute; reflexivity. Qed.

(** On the sample payload, and on the same payload without the infinity, the
    stored text is JSON. *)
Example sample_raw_payload_is_json :
  json_valid (json_dumps (H:=example_host) sample_payload) = true
  /\ json_valid (json_dumps (H:=example_host) minimal_payload) = true.
Proof. split; vm_compute; reflexivity. Qed.

(** C1 as stated fails: [result_id] coerces to the integer 0, the [quiz_title]
    key is present, and the endpoint answers with the required-fields error. *)
Lemma C1_counterexample :
  _to_int (H:=example_host) (dict_get zero_id_payload "result_id") = Ok (Some 0)
  /\ dict_get zero_id_payload "quiz_title" = VStr "Math Quiz"
  /\ submit_quiz_result (H:=example_host) no_faults
       (json_request (VDict zero_id_payload)) empty_world
     = (Ok (error_response "Both result_id and quiz_title are required."), empty_world).
Proof. repeat split; reflexivity. Qed.

Lemma C1_required_fields_witness :
  submit_quiz_result (H:=example_host) no_faults
    (json_request (VDict unparsable_id_payload)) empty_world
  = (Ok (error_response "Both result_id and quiz_title are required."), empty_world).
Proof.
  apply (proj2 (C1_required_fields (H:=example_host) no_faults
                  (json_request (VDict unparsable_id_payload)) unparsable_id_payload
                  empty_world eq_refl eq_refl)).
  exists None. split; [reflexivity|]. left. reflexivity.
Defined.

Lemma missing_payload_on_caught_failure_witness :
  submit_quiz_result (H:=example_host) no_faults empty_request empty_world
  = (Ok (error_response "Missing payload."), empty_world)
  /\ submit_quiz_result (H:=example_host) no_faults unparsable_request empty_world
     = (Ok (error_response "Missing payload."), empty_world).
Proof.
  split; apply (missing_payload_on_caught_failure (H:=example_host)).
  - intros data Hd. discriminate Hd.
  - intros key s Hf. injection Hf as _ <-. vm_compute. reflexivity.
  - intros fd Hf Hshape. injection Hf as <-. destruct (Hshape "data" "{}" eq_refl).
  - intros data Hd. discriminate Hd.
  - intros key s Hf. injection Hf as _ <-. vm_compute. by right.
  - intros fd Hf Hshape. injection Hf as <-. destruct (Hshape "data" "{oops" eq_refl).
Defined.

Lemma C9_recursion_error_escapes_witness :
  _load_payload (H:=example_host) deep_request = Raise RecursionError
  /\ submit_quiz_result (H:=example_host) no_faults deep_request empty_world
     = (Raise RecursionError, empty_world).
Proof.
  apply (C9_recursion_error_escapes (H:=example_host) no_faults deep_request
           "data" (brackets 1000) empty_world).
  - intros data Hd. discriminate Hd.
  - reflexivity.
  - vm_compute. reflexivity.
Defined.

Lemma store_ok_empty : store_ok empty_world.
Proof.
  split; [reflexivity|]. split.
  - intros i j d1 d2 Hi. discriminate Hi.
  - intros i j d1 d2 rid Hi. discriminate Hi.
Qed.

Lemma unique_names_singleton (d : doc) : unique_names [d].
Proof.
  intros i j d1 d2 Hi Hj _.
  destruct i as [|i]; [|discriminate Hi]. destruct j as [|j]; [|discriminate Hj].
  reflexivity.
Qed.


(** The retake overwrites the title and keeps the score. *)
Example retake_merges :
  (fun d => (doc_fields d !! "quiz_title", doc_fields d !! "score_percentage")) <$>
    db_committed (submit_quiz_result (H:=example_host) no_faults
                    (json_request retake_payload) one_row_world).2
  = [(Some (VStr "Math Quiz (retake)"), Some (VFloat (FFin false 45 1)))].
Proof. vm_compute. reflexivity. Qed.

Lemma store_ok_one_row : store_ok one_row_world.
Proof.
  split; [reflexivity|]. split; [apply unique_names_singleton|].
  intros i j d1 d2 rid Hi Hj _ _.
  destruct i as [|i]; [|discriminate Hi]. destruct j as [|j]; [|discriminate Hj].
  reflexivity.
Qed.


(** Two submissions for one id leave one record. *)
Example same_id_twice_one_record :
  row_key <$> db_committed (run (H:=example_host) three_calls empty_world)
  = [("PTR-123", Some 123)].
Proof. vm_compute. reflexivity. Qed.

(** * Further properties of the endpoint *)

Section Endpoint.
Context `{Host}.
Implicit Types (w : world) (fails : store_op -> bool) (values : list (string * value)).

(** The derivation of [doc_values] reads the payload only. *)
Lemma doc_values_any_world payload rid quiz_title w w2 r :
  doc_values payload rid quiz_title w = (r, w) ->
  doc_values payload rid quiz_title w2 = (r, w2).
Proof.
  unfold doc_values, bind, lift, ret.
  repeat match goal with
    | |- context [match ?x with Ok _ => _ | Raise _ => _ end] => destruct x; simpl
    end; by intros [= <-].
Qed.

Lemma doc_values_quiz_title payload rid quiz_title w values w' :
  doc_values payload rid quiz_title w = (Ok values, w') ->
  dict_get values "quiz_title" = VStr (py_str quiz_title).
Proof.
  unfold doc_values, bind, lift, ret.
  repeat match goal with
    | |- context [match ?x with Ok _ => _ | Raise _ => _ end] => destruct x; simpl
    end; intros [= <- <-] || discriminate.
  reflexivity.
Qed.

(** Every way a request can end. *)
Lemma submit_cases fails req w :
  (exists e, submit_quiz_result fails req w = (Raise e, w))
  \/ submit_quiz_result fails req w = (Ok (error_response "Missing payload."), w)
  \/ submit_quiz_result fails req w
     = (Ok (error_response "Both result_id and quiz_title are required."), w)
  \/ submit_quiz_result fails req w
     = (Ok (error_response "An unexpected error occurred."), rolled_back w)
  \/ (exists p rid values d d0,
        _load_payload req = Ok (VDict p)
        /\ doc_values p rid (dict_get p "quiz_title") w = (Ok values, w)
        /\ List.find (has_result_id rid) (db_session w) = Some d
        /\ List.find (has_name (doc_name d)) (db_session w) = Some d0
        /\ submit_quiz_result fails req w
           = (Ok (success_response (doc_name d) rid),
              let rows := replace_row (merged d0 values) (db_session w) in
              World rows rows (error_log w)))
  \/ (exists p rid values,
        _load_payload req = Ok (VDict p)
        /\ doc_values p rid (dict_get p "quiz_title") w = (Ok values, w)
        /\ List.find (has_result_id rid) (db_session w) = None
        /\ existsb (has_name (doc_name (created values (db_session w)))) (db_session w)
           = false
        /\ submit_quiz_result fails req w
           = (Ok (success_response (doc_name (created values (db_session w))) rid),
              let rows := db_session w ++ [created values (db_session w)] in
              World rows rows (error_log w))).
Proof.
  destruct (load_payload_cases req) as [[payload Hload]|(e & _ & Hload & _)];
    [|left; exists e; by apply submit_on_load_raise].
  destruct (truthy payload) eqn:Ht.
  - destruct payload as [| | | | | |p];
      try (left; eexists; by rewrite (submit_on_non_dict _ _ _ _ Hload Ht)).
    rewrite (submit_on_dict _ _ _ _ Hload Ht).
    destruct (_to_int (dict_get p "result_id")) as [[rid|]|e]; [|by auto|by eauto].
    destruct ((rid =? 0) || negb (truthy (dict_get p "quiz_title"))); [by auto|].
    pose proof (doc_values_world p rid (dict_get p "quiz_title") w) as Hw.
    destruct (doc_values p rid (dict_get p "quiz_title") w) as [[values|e] w0] eqn:Hdv;
      [|by eauto].
    cbn in Hw. subst w0.
    destruct (upsert_cases fails rid values w)
      as [[_ ->]|[[_ ->]|[(_ & d & d0 & Hfind & Hname & ->)|(_ & Hfind & Hfresh & ->)]]].
    + eauto.
    + auto.
    + do 4 right. left. by exists p, rid, values, d, d0.
    + do 5 right. by exists p, rid, values.
  - right; left. unfold submit_quiz_result, bind, lift, ret. by rewrite Hload, Ht.
Qed.

(** The endpoint answers with one of four bodies: the three error messages or
    the success body; nothing else is ever returned. *)
Theorem response_is_one_of_four fails req w r w' :
  submit_quiz_result fails req w = (Ok r, w') ->
  r = error_response "Missing payload."
  \/ r = error_response "Both result_id and quiz_title are required."
  \/ r = error_response "An unexpected error occurred."
  \/ exists name rid, r = success_response name rid.
Proof.
  intros Hsub.
  destruct (submit_cases fails req w)
    as [[e He]|[He|[He|[He|[(p & rid & values & d & d0 & _ & _ & _ & _ & He)
                           |(p & rid & values & _ & _ & _ & _ & He)]]]]];
    rewrite He in Hsub; simplify_eq; eauto 6.
Qed.

(** When the endpoint raises, it has written nothing: the world is the one
    it was called in. *)
Theorem raise_leaves_world fails req w e w' :
  submit_quiz_result fails req w = (Raise e, w') -> w' = w.
Proof.
  intros Hsub.
  destruct (submit_cases fails req w)
    as [[e' He]|[He|[He|[He|[(p & rid & values & d & d0 & _ & _ & _ & _ & He)
                            |(p & rid & values & _ & _ & _ & _ & He)]]]]];
    rewrite He in Hsub; by simplify_eq.
Qed.

(** Only a success commits: after any other outcome the committed rows are
    the ones before the request, and no transaction is left open. *)
Theorem only_success_commits fails req w r w' :
  submit_quiz_result fails req w = (r, w') ->
  (forall name rid, r <> Ok (success_response name rid)) ->
  db_committed w' = db_committed w
  /\ (db_session w = db_committed w -> db_session w' = db_committed w').
Proof.
  intros Hsub Hr.
  destruct (submit_cases fails req w)
    as [[e' He]|[He|[He|[He|[(p & rid & values & d & d0 & _ & _ & _ & _ & He)
                            |(p & rid & values & _ & _ & _ & _ & He)]]]]];
    rewrite He in Hsub; simplify_eq; try done.
  - by destruct (Hr (doc_name d) rid).
  - by destruct (Hr (doc_name (created values (db_session w))) rid).
Qed.

(** The error log grows by one entry, the fixed title, exactly when the
    answer is the generic error; no other outcome logs. *)
Theorem log_only_on_unexpected_error fails req w r w' :
  submit_quiz_result fails req w = (r, w') ->
  (r = Ok (error_response "An unexpected error occurred.") ->
   error_log w' = error_log w ++ [log_title])
  /\ (r <> Ok (error_response "An unexpected error occurred.") ->
      error_log w' = error_log w).
Proof.
  intros Hsub.
  destruct (submit_cases fails req w)
    as [[e' He]|[He|[He|[He|[(p & rid & values & d & d0 & _ & _ & _ & _ & He)
                            |(p & rid & values & _ & _ & _ & _ & He)]]]]];
    rewrite He in Hsub; simplify_eq; split; intros Hr; try done.
Qed.

(** A validation error does not depend on the store: the same request gets
    the same answer whichever store calls would fail. *)
Theorem validation_ignores_store fails fails' req w msg w' :
  msg = "Missing payload." \/ msg = "Both result_id and quiz_title are required." ->
  submit_quiz_result fails req w = (Ok (error_response msg), w') ->
  submit_quiz_result fails' req w = (Ok (error_response msg), w).
Proof.
  intros Hmsg Hsub.
  destruct (load_payload_cases req) as [[payload Hload]|(e & _ & Hload & _)];
    [|by rewrite (submit_on_load_raise _ _ _ _ Hload) in Hsub].
  destruct (truthy payload) eqn:Ht.
  - destruct payload as [| | | | | |p];
      try (rewrite (submit_on_non_dict _ _ _ _ Hload Ht) in Hsub; done).
    rewrite (submit_on_dict fails _ _ _ Hload Ht) in Hsub.
    rewrite (submit_on_dict fails' _ _ _ Hload Ht).
    destruct (_to_int (dict_get p "result_id")) as [[rid|]|e];
      [|by simplify_eq|discriminate Hsub].
    destruct ((rid =? 0) || negb (truthy (dict_get p "quiz_title"))); [by simplify_eq|].
    exfalso.
    destruct (doc_values p rid (dict_get p "quiz_title") w) as [[values|e] w0];
      [|discriminate Hsub].
    destruct (upsert_cases fails rid values w)
      as [[_ Hu]|[[_ Hu]|[(_ & d & d0 & _ & _ & Hu)|(_ & _ & _ & Hu)]]];
      rewrite Hu in Hsub; destruct Hmsg as [-> | ->]; discriminate Hsub.
  - unfold submit_quiz_result, bind, lift, ret in Hsub |- *.
    rewrite Hload, Ht in Hsub. rewrite Hload, Ht. cbn in Hsub |- *.
    by simplify_eq.
Qed.

(** A first submission for a [result_id] adds one row after the existing
    ones; the row holds exactly the derived values that are not null. *)
Theorem first_submission_creates_row fails req w name rid w' :
  submit_quiz_result fails req w = (Ok (success_response name rid), w') ->
  List.find (has_result_id rid) (db_session w) = None ->
  exists p values d',
    _load_payload req = Ok (VDict p)
    /\ doc_values p rid (dict_get p "quiz_title") w = (Ok values, w)
    /\ db_committed w' = db_session w ++ [d']
    /\ doc_name d' = name
    /\ forall key,
         doc_fields d' !! key =
           if is_None (dict_get values key) then None else Some (dict_get values key).
Proof.
  intros Hsub Hnone.
  destruct (submit_cases fails req w)
    as [[e' He]|[He|[He|[He|[(p & rid' & values & d & d0 & _ & _ & Hfind & _ & He)
                            |(p & rid' & values & Hload & Hdv & _ & _ & He)]]]]];
    rewrite He in Hsub; simplify_eq.
  exists p, values, (created values (db_session w)). repeat split; try done.
  intros key. unfold created. cbn [doc_fields].
  rewrite merge_lookup by by eapply doc_values_keys_NoDup.
  by rewrite lookup_empty.
Qed.

(** An update touches one row: the number of rows is the same and every row
    of another name is as it was. *)
Theorem update_leaves_other_rows fails req w name rid w' d :
  submit_quiz_result fails req w = (Ok (success_response name rid), w') ->
  List.find (has_result_id rid) (db_session w) = Some d ->
  name = doc_name d
  /\ length (db_committed w') = length (db_session w)
  /\ forall i r, db_session w !! i = Some r -> doc_name r <> name ->
                 db_committed w' !! i = Some r.
Proof.
  intros Hsub Hfind.
  destruct (submit_cases fails req w)
    as [[e' He]|[He|[He|[He|[(p & rid' & values & d1 & d0 & _ & _ & Hfind1 & Hname & He)
                            |(p & rid' & values & _ & _ & Hnone & _ & He)]]]]];
    rewrite He in Hsub; simplify_eq.
  cbn [db_committed]. repeat split.
  - unfold replace_row. by rewrite length_map.
  - intros i r Hi Hne. rewrite replace_row_lookup, Hi.
    change (Some (if has_name (doc_name (merged d0 values)) r
                  then merged d0 values else r) = Some r).
    destruct (has_name (doc_name (merged d0 values)) r) eqn:Hn; [|done].
    apply has_name_spec in Hn. cbn in Hn.
    apply find_has_name_name in Hname. congruence.
Qed.

(** The row that a successful request leaves: it is committed, no
    transaction is open, it bears the returned name, and it holds every
    derived value that is not null. *)
Lemma success_row fails req w name rid w' :
  submit_quiz_result fails req w = (Ok (success_response name rid), w') ->
  exists p values i d',
    _load_payload req = Ok (VDict p)
    /\ doc_values p rid (dict_get p "quiz_title") w = (Ok values, w)
    /\ db_session w' = db_committed w'
    /\ db_committed w' !! i = Some d'
    /\ doc_name d' = name
    /\ exists fields, doc_fields d' = set_fields (non_null values) fields.
Proof.
  intros Hsub.
  destruct (submit_cases fails req w)
    as [[e' He]|[He|[He|[He|[(p & rid' & values & d & d0 & Hload & Hdv & Hfind & Hname & He)
                            |(p & rid' & values & Hload & Hdv & _ & _ & He)]]]]];
    rewrite He in Hsub; simplify_eq.
  - destruct (find_lookup _ _ _ Hname) as (i & Hi & Hn).
    exists p, values, i, (merged d0 values). repeat split; try done.
    + cbn [db_committed]. rewrite replace_row_lookup, Hi.
      change (Some (if has_name (doc_name (merged d0 values)) d0
                    then merged d0 values else d0) = Some (merged d0 values)).
      cbn [merged doc_name]. by rewrite (proj2 (has_name_spec _ _) eq_refl).
    + cbn. by apply has_name_spec in Hn.
    + by eexists.
  - exists p, values, (length (db_session w)), (created values (db_session w)).
    repeat split; try done.
    + cbn [db_committed]. by rewrite lookup_app_r, Nat.sub_diag.
    + by eexists.
Qed.

(** Every successful request stores the three values that are never null: the
    coerced [result_id], the title as a string, and the compact dump of the
    payload, in a committed row of the returned name. *)
Theorem success_stores_key_fields fails req w name rid w' :
  submit_quiz_result fails req w = (Ok (success_response name rid), w') ->
  exists p d',
    _load_payload req = Ok (VDict p)
    /\ d' ∈ db_committed w' /\ doc_name d' = name
    /\ doc_fields d' !! "result_id" = Some (VInt rid)
    /\ doc_fields d' !! "quiz_title" = Some (VStr (py_str (dict_get p "quiz_title")))
    /\ doc_fields d' !! "raw_payload" = Some (VStr (json_dumps (VDict p))).
Proof.
  intros (p & values & i & d' & Hload & Hdv & _ & Hi & Hn & fields & Hf)%success_row.
  pose proof (doc_values_keys_NoDup _ _ _ _ _ _ Hdv) as Hnd.
  pose proof (doc_values_quiz_title _ _ _ _ _ _ Hdv) as Htitle.
  apply doc_values_returns in Hdv as (_ & _ & Hrid & Hraw).
  exists p, d'. repeat split; try done.
  - by eapply list_elem_of_lookup_2.
  - by rewrite Hf, merge_lookup, Hrid.
  - by rewrite Hf, merge_lookup, Htitle.
  - by rewrite Hf, merge_lookup, Hraw.
Qed.

(** After a success in a store that is in order, the lookup by [result_id]
    finds the row of the returned name. *)
Lemma success_row_found fails req w name rid w' :
  store_ok w ->
  submit_quiz_result fails req w = (Ok (success_response name rid), w') ->
  store_ok w'
  /\ exists values d' fields,
       NoDup (values.*1)
       /\ List.find (has_result_id rid) (db_session w') = Some d'
       /\ doc_name d' = name
       /\ doc_fields d' = set_fields (non_null values) fields.
Proof.
  intros Hok Hsub.
  assert (Hok' : store_ok w').
  { destruct (submit_step fails req w Hok) as [Hok' _]. by rewrite Hsub in Hok'. }
  split; [done|].
  destruct (success_row _ _ _ _ _ _ Hsub)
    as (p & values & i & d' & _ & Hdv & Hs & Hi & Hn & fields & Hf).
  pose proof (doc_values_keys_NoDup _ _ _ _ _ _ Hdv) as Hnd.
  apply doc_values_returns in Hdv as (_ & _ & Hrid & _).
  assert (Hd' : result_id_of d' = Some rid).
  { unfold result_id_of. by rewrite Hf, merge_lookup, Hrid. }
  rewrite Hs.
  destruct (find_is_Some (has_result_id rid) _ _ _ Hi) as [d2 Hd2];
    [by apply has_result_id_spec|].
  destruct (find_lookup _ _ _ Hd2) as (j & Hj & Hrid2%has_result_id_spec).
  destruct Hok' as (_ & _ & Hids).
  assert (j = i) as -> by eauto.
  exists values, d', fields. repeat split; try done. congruence.
Qed.

(** Round trip: after a successful request, the lookup that the endpoint
    itself performs ([frappe.get_all] filtered on the returned [result_id])
    yields exactly the returned document name. *)
Theorem lookup_after_success fails fails' req w name rid w' :
  store_ok w ->
  submit_quiz_result fails req w = (Ok (success_response name rid), w') ->
  fails' OpGetAll = false ->
  get_all fails' rid w' = (Ok [name], w').
Proof.
  intros Hok Hsub Hga.
  destruct (success_row_found _ _ _ _ _ _ Hok Hsub)
    as (_ & values & d' & fields & _ & Hfind & Hn & _).
  unfold get_all, bind, guard. by rewrite Hga, Hfind, Hn.
Qed.

(** A request that succeeded runs [upsert] on the same values whatever the
    world it is sent in. *)
Lemma submit_is_upsert fails req w name rid w' :
  submit_quiz_result fails req w = (Ok (success_response name rid), w') ->
  exists p values,
    _load_payload req = Ok (VDict p)
    /\ doc_values p rid (dict_get p "quiz_title") w = (Ok values, w)
    /\ forall fails2 w2,
         submit_quiz_result fails2 req w2 = upsert fails2 rid values w2.
Proof.
  intros Hsub.
  destruct (load_payload_cases req) as [[payload Hload]|(e & _ & Hload & _)];
    [|by rewrite (submit_on_load_raise _ _ _ _ Hload) in Hsub].
  destruct (truthy payload) eqn:Ht.
  - destruct payload as [| | | | | |p];
      try (rewrite (submit_on_non_dict _ _ _ _ Hload Ht) in Hsub; done).
    rewrite (submit_on_dict _ _ _ _ Hload Ht) in Hsub.
    destruct (_to_int (dict_get p "result_id")) as [[rid0|]|e] eqn:Hid; try done.
    destruct ((rid0 =? 0) || negb (truthy (dict_get p "quiz_title"))) eqn:Hc; [done|].
    pose proof (doc_values_world p rid0 (dict_get p "quiz_title") w) as Hw.
    destruct (doc_values p rid0 (dict_get p "quiz_title") w) as [[values|e] w0] eqn:Hdv;
      [|done].
    cbn in Hw. subst w0.
    assert (rid0 = rid) as ->.
    { destruct (upsert_cases fails rid0 values w)
        as [[_ Hu]|[[_ Hu]|[(_ & d & d0 & _ & _ & Hu)|(_ & _ & _ & Hu)]]];
        rewrite Hu in Hsub; try done; by injection Hsub. }
    exists p, values. split; [done|]. split; [done|]. intros fails2 w2.
    rewrite (submit_on_dict _ _ _ _ Hload Ht), Hid, Hc.
    by rewrite (doc_values_any_world _ _ _ _ w2 _ Hdv).
  - unfold submit_quiz_result, bind, lift, ret in Hsub.
    rewrite Hload, Ht in Hsub. done.
Qed.

(** With no failing store call, [upsert] on a [result_id] that has a row
    merges into that row and succeeds. *)
Lemma upsert_no_faults_found rid values w d d0 :
  List.find (has_result_id rid) (db_session w) = Some d ->
  List.find (has_name (doc_name d)) (db_session w) = Some d0 ->
  upsert no_faults rid values w
  = (Ok (success_response (doc_name d) rid),
     let rows := replace_row (merged d0 values) (db_session w) in
     World rows rows (error_log w)).
Proof.
  intros Hfind Hname.
  destruct (upsert_cases no_faults rid values w)
    as [[Hf _]|[[_ Hu]|[(_ & d1 & d2 & Hfind1 & Hname1 & Hu)|(_ & Hnone & _)]]].
  - discriminate Hf.
  - exfalso. revert Hu.
    unfold upsert, get_all, get_doc, doc_update, doc_save, db_commit,
      bind, guard, try_catch, ret, no_faults.
    rewrite Hfind, Hname. cbn [doc_name].
    rewrite (find_has_name_name _ _ _ Hname), (existsb_has_name_find _ _ _ Hname).
    discriminate.
  - by simplify_eq.
  - congruence.
Qed.

Lemma set_fields_twice values fields :
  NoDup (values.*1) ->
  set_fields values (set_fields values fields) = set_fields values fields.
Proof.
  intros Hnd. apply map_eq. intros key. rewrite !set_fields_lookup by done.
  by destruct (decide (key ∈ values.*1)).
Qed.

Lemma replace_row_same rows i d :
  unique_names rows -> rows !! i = Some d -> replace_row d rows = rows.
Proof.
  intros Hun Hi. apply list_eq. intros j. rewrite replace_row_lookup.
  destruct (rows !! j) as [r|] eqn:Hj; [|done].
  change (Some (if has_name (doc_name d) r then d else r) = Some r).
  destruct (has_name (doc_name d) r) eqn:Hn; [|done].
  apply has_name_spec in Hn. assert (j = i) as -> by eauto. congruence.
Qed.

(** Sending a request that succeeded once more, with no store failure,
    succeeds with the same answer and changes nothing: the endpoint is
    idempotent under redelivery. *)
Theorem resubmission_is_idempotent fails req w name rid w' :
  store_ok w ->
  submit_quiz_result fails req w = (Ok (success_response name rid), w') ->
  submit_quiz_result no_faults req w' = (Ok (success_response name rid), w').
Proof.
  intros Hok Hsub.
  destruct (submit_is_upsert _ _ _ _ _ _ Hsub) as (p & values0 & Hload0 & Hdv0 & Hall).
  destruct (success_row _ _ _ _ _ _ Hsub)
    as (p' & values & i & d' & Hload & Hdv & Hs & Hi & Hn & fields & Hf).
  assert (Hok' : store_ok w').
  { destruct (submit_step fails req w Hok) as [Hok' _]. by rewrite Hsub in Hok'. }
  assert (p' = p) as -> by congruence.
  assert (values0 = values) as -> by congruence.
  pose proof (doc_values_keys_NoDup _ _ _ _ _ _ Hdv) as Hnd.
  apply doc_values_returns in Hdv as (_ & _ & Hrid & _).
  assert (Hd' : result_id_of d' = Some rid).
  { unfold result_id_of. by rewrite Hf, merge_lookup, Hrid. }
  destruct Hok' as (_ & Hnames & Hids).
  destruct (find_is_Some (has_result_id rid) _ _ _ Hi) as [d2 Hd2];
    [by apply has_result_id_spec|].
  destruct (find_lookup _ _ _ Hd2) as (j & Hj & Hrid2%has_result_id_spec).
  assert (j = i) as -> by eauto. assert (d2 = d') as -> by congruence.
  destruct (find_is_Some (has_name (doc_name d')) _ _ _ Hi) as [d0 Hd0];
    [by apply has_name_spec|].
  assert (d0 = d') as -> by (eapply found_row_is_loaded; eauto).
  rewrite Hall, <- Hs in *.
  rewrite (upsert_no_faults_found _ _ _ _ _ Hd2 Hd0), Hn.
  assert (Hm : merged d' values = d').
  { destruct d' as [n f]. unfold merged. cbn in *. subst f.
    by rewrite set_fields_twice by by apply non_null_NoDup. }
  rewrite Hm. cbn zeta. rewrite (replace_row_same _ _ _ Hnames Hi).
  destruct w' as [c s' l]. cbn in *. by subst.
Qed.

(** A success is answered only to a payload that passed the validation:
    the reported id is the coerced [result_id], it is not 0, and the title is
    truthy. *)
Theorem success_implies_valid fails req w name rid w' :
  submit_quiz_result fails req w = (Ok (success_response name rid), w') ->
  exists p,
    _load_payload req = Ok (VDict p)
    /\ _to_int (dict_get p "result_id") = Ok (Some rid)
    /\ rid <> 0
    /\ truthy (dict_get p "quiz_title") = true.
Proof.
  intros Hsub.
  destruct (load_payload_cases req) as [[payload Hload]|(e & _ & Hload & _)];
    [|by rewrite (submit_on_load_raise _ _ _ _ Hload) in Hsub].
  destruct (truthy payload) eqn:Ht.
  - destruct payload as [| | | | | |p];
      try (rewrite (submit_on_non_dict _ _ _ _ Hload Ht) in Hsub; done).
    rewrite (submit_on_dict _ _ _ _ Hload Ht) in Hsub.
    destruct (_to_int (dict_get p "result_id")) as [[rid0|]|e] eqn:Hid; try done.
    destruct ((rid0 =? 0) || negb (truthy (dict_get p "quiz_title"))) eqn:Hc; [done|].
    apply orb_false_iff in Hc as [Hz%Z.eqb_neq Htitle%negb_false_iff].
    destruct (doc_values p rid0 (dict_get p "quiz_title") w) as [[values|e] w0];
      [|done].
    assert (rid0 = rid) as ->.
    { destruct (upsert_cases fails rid0 values w)
        as [[_ Hu]|[[_ Hu]|[(_ & d & d0 & _ & _ & Hu)|(_ & _ & _ & Hu)]]];
        rewrite Hu in Hsub; try done; by injection Hsub. }
    by exists p.
  - unfold submit_quiz_result, bind, lift, ret in Hsub.
    rewrite Hload, Ht in Hsub. done.
Qed.

(** A truthy JSON body is the payload whatever the form map holds.  When
    [_load_payload] raises, the direct parse gave nothing, the form map is a
    non-empty mapping, and the exception is one that the clause
    [except (TypeError, ValueError)] does not name. *)
Theorem load_payload_prefers_body req :
  (forall data, get_json req = Ok data -> truthy data = true ->
                _load_payload req = Ok data)
  /\ (forall e, _load_payload req = Raise e ->
        e <> TypeError /\ e <> ValueError
        /\ (forall data, get_json req = Ok data -> truthy data = false)
        /\ exists fd, form_dict req = VDict fd /\ fd <> []).
Proof.
  split.
  - intros data Hj Ht. unfold _load_payload. by rewrite Hj, Ht.
  - intros e Hload.
    destruct (load_payload_cases req)
      as [[payload Hok]|(e' & fd & Hraise & ? & ? & ? & ? & ?)]; [congruence|].
    assert (e' = e) as -> by congruence. eauto 10.
Qed.

(** A truthy payload that is not a mapping (a JSON body such as [[1]], or a
    sole form field whose text parses to a number, a string or a list) makes
    the endpoint raise [AttributeError]; nothing is written. *)
Theorem non_mapping_payload_raises fails req w v :
  get_json req = Ok v
  \/ ((forall data, get_json req = Ok data -> truthy data = false)
      /\ exists key s, form_dict req = VDict [(key, VStr s)] /\ json_loads s = Ok v) ->
  truthy v = true ->
  (forall p, v <> VDict p) ->
  submit_quiz_result fails req w = (Raise AttributeError, w).
Proof.
  intros Hsrc Ht Hnd. apply (submit_on_non_dict _ _ v); [|done..].
  unfold _load_payload.
  destruct Hsrc as [Hj|(Hdirect & key & s & Hform & Hs)].
  - by rewrite Hj, Ht.
  - destruct (get_json req) as [data|e]; [rewrite (Hdirect data eq_refl)|];
      rewrite Hform; cbn; by rewrite Hs.
Qed.

(** A [user] entry that is truthy but not a mapping makes the endpoint raise
    [AttributeError] when it reads the e-mail, although the required fields
    are valid; nothing is written. *)
Theorem non_mapping_user_raises fails req p w rid :
  _load_payload req = Ok (VDict p) ->
  _to_int (dict_get p "result_id") = Ok (Some rid) -> rid <> 0 ->
  truthy (dict_get p "quiz_title") = true ->
  (forall key, key ∈ ["quiz_id"; "duration_seconds"] ->
               exists r, _to_int (dict_get p key) = Ok r) ->
  (forall key, key ∈ ["score_percentage"; "final_score"; "score_by"; "points"] ->
               exists r, _to_float (dict_get p key) = Ok r) ->
  truthy (dict_get p "user") = true ->
  (forall u, dict_get p "user" <> VDict u) ->
  submit_quiz_result fails req w = (Raise AttributeError, w).
Proof.
  intros Hload Hid Hz Htitle Hints Hfloats Hu Hnd.
  assert (Ht : truthy (VDict p) = true).
  { destruct p; [|done]. cbn in Hid. discriminate Hid. }
  rewrite (submit_on_dict _ _ _ _ Hload Ht), Hid.
  apply Z.eqb_neq in Hz. rewrite Hz, Htitle. cbn [orb negb].
  unfold doc_values, bind, lift, ret.
  destruct (Hints "quiz_id") as [? ->]; [set_solver|].
  destruct (Hfloats "score_percentage") as [? ->]; [set_solver|].
  destruct (Hfloats "final_score") as [? ->]; [set_solver|].
  destruct (Hfloats "score_by") as [? ->]; [set_solver|].
  destruct (Hfloats "points") as [? ->]; [set_solver|].
  destruct (Hints "duration_seconds") as [? ->]; [set_solver|].
  unfold py_or. rewrite Hu.
  destruct (dict_get p "user"); try done. by destruct (Hnd entries).
Qed.

(** Whenever [_to_datetime] returns a string, the input was truthy, and the
    string has the shape [YYYY-MM-DD HH:MM:SS] when the host's parser returned
    a datetime within the range of the type and of a year from 1000 on.  (The
    year of an earlier datetime is written with fewer than four digits.) *)
Theorem to_datetime_returns_timestamp v s :
  (forall dt, get_datetime v = Ok (Some dt) ->
              valid_datetime dt /\ (1000 <= year dt)%nat) ->
  _to_datetime v = Some s ->
  truthy v = true /\ is_timestamp s = true.
Proof.
  intros Hvalid. unfold _to_datetime.
  destruct (truthy v); [|done]. cbn [negb].
  destruct (get_datetime v) as [[dt|]|e] eqn:Hdt; try done.
  intros [= <-]. split; [done|].
  destruct (Hvalid dt eq_refl). by apply strftime_shape.
Qed.

(** In the [custom_fields] loop a matching entry with an empty value does not
    end the search: the result is the value of the first entry that is a
    dict, matches the slug or the label and has a non-empty value, whatever
    comes before it.  (Stated for a payload without a usable [fields].) *)
Theorem custom_fields_first_usable payload before entry after slug label :
  truthy (dict_get payload "fields") = false ->
  dict_get payload "custom_fields" = VList (before ++ VDict entry :: after) ->
  Forall (fun e => custom_hit slug label e = false) before ->
  (eq_str (dict_get entry "slug") slug || eq_str (dict_get entry "label") label) = true ->
  not_empty (dict_get entry "value") = true ->
  _extract_custom_value payload slug label = Some (py_str (dict_get entry "value")).
Proof.
  intros Hfields Hcf Hbefore Hmatch Hvalue.
  assert (Hff : from_fields payload slug label = None).
  { unfold from_fields, py_or. by rewrite Hfields. }
  assert (Ht : truthy (VList (before ++ VDict entry :: after)) = true)
    by (by destruct before).
  assert (Hfind : List.find (custom_hit slug label) (before ++ VDict entry :: after)
                  = Some (VDict entry)).
  { clear Hcf Ht. induction before as [|e before IH]; cbn [app List.find].
    - cbn [custom_hit]. by rewrite Hmatch, Hvalue.
    - apply Forall_cons in Hbefore as [He Hbefore]. rewrite He. by apply IH. }
  unfold _extract_custom_value. rewrite Hff.
  unfold from_custom_fields, py_or. rewrite Hcf, Ht.
  by rewrite scan_custom_fields_find, Hfind.
Qed.

End Endpoint.

Section Healthy.
Context `{Host}.

(** With no failing store call, [upsert] on a new [result_id] whose name is
    free inserts a row and succeeds. *)
Lemma upsert_no_faults_fresh rid (values : list (string * value)) (w : world) :
  List.find (has_result_id rid) (db_session w) = None ->
  existsb (has_name (doc_name (created values (db_session w)))) (db_session w) = false ->
  upsert no_faults rid values w
  = (Ok (success_response (doc_name (created values (db_session w))) rid),
     let rows := db_session w ++ [created values (db_session w)] in
     World rows rows (error_log w)).
Proof.
  intros Hnone Hfresh.
  destruct (upsert_cases no_faults rid values w)
    as [[Hf _]|[[_ Hu]|[(_ & d1 & d2 & Hfind1 & _)|(_ & _ & _ & Hu)]]].
  - discriminate Hf.
  - exfalso. revert Hu.
    unfold upsert, get_all, new_doc, doc_update, doc_insert, db_commit,
      bind, guard, try_catch, ret, no_faults.
    rewrite Hnone. cbn [doc_fields doc_name].
    unfold created in Hfresh. cbn [doc_name] in Hfresh. rewrite Hfresh. discriminate.
  - congruence.
  - done.
Qed.

(** A valid request on a healthy store succeeds: when the payload passes the
    validation, the derivation of the values returns, no store call fails and
    either a row has the [result_id] or the name of the new row is free, the
    answer is the success body with the coerced id. *)
Theorem valid_request_succeeds req p rid (values : list (string * value)) (w : world) :
  _load_payload req = Ok (VDict p) ->
  _to_int (dict_get p "result_id") = Ok (Some rid) -> rid <> 0 ->
  truthy (dict_get p "quiz_title") = true ->
  doc_values p rid (dict_get p "quiz_title") w = (Ok values, w) ->
  is_Some (List.find (has_result_id rid) (db_session w))
  \/ existsb (has_name (doc_name (created values (db_session w)))) (db_session w) = false ->
  exists name w',
    submit_quiz_result no_faults req w = (Ok (success_response name rid), w').
Proof.
  intros Hload Hid Hz Htitle Hdv Hstore.
  assert (Ht : truthy (VDict p) = true).
  { destruct p; [|done]. cbn in Hid. discriminate Hid. }
  rewrite (submit_on_dict _ _ _ _ Hload Ht), Hid.
  apply Z.eqb_neq in Hz. rewrite Hz, Htitle, Hdv. cbn [orb negb].
  destruct (List.find (has_result_id rid) (db_session w)) as [d|] eqn:Hfind.
  - destruct (find_lookup _ _ _ Hfind) as (i & Hi & _).
    destruct (find_is_Some (has_name (doc_name d)) _ _ _ Hi) as [d0 Hd0];
      [by apply has_name_spec|].
    rewrite (upsert_no_faults_found _ _ _ _ _ Hfind Hd0). eauto.
  - destruct Hstore as [[d Hd]|Hfresh]; [discriminate Hd|].
    rewrite (upsert_no_faults_fresh _ _ _ Hfind Hfresh). eauto.
Qed.

End Healthy.

(** ** Decimal texts *)

Lemma digit_not_space (c : ascii) : is_digit c = true -> is_space c = false.
Proof.
  unfold is_digit, digit_of, is_space.
  destruct ((48 <=? nat_of_ascii c)%nat && (nat_of_ascii c <=? 57)%nat) eqn:Hd; [|done].
  intros _. apply andb_true_iff in Hd as [H1%Nat.leb_le H2%Nat.leb_le].
  apply orb_false_iff. split.
  - apply andb_false_iff. right. apply Nat.leb_gt. lia.
  - apply Nat.eqb_neq. lia.
Qed.

Lemma all_digits_ascii (s : string) : all_digits s = true -> is_ascii_text s = true.
Proof.
  induction s as [|c r IH]; [done|]. cbn [all_digits is_ascii_text].
  intros [Hc Hr]%andb_true_iff. rewrite (IH Hr), andb_true_r.
  unfold is_digit, digit_of in Hc.
  destruct ((48 <=? nat_of_ascii c)%nat && (nat_of_ascii c <=? 57)%nat) eqn:Hd; [|done].
  apply andb_true_iff in Hd as [_ H2%Nat.leb_le]. apply Nat.ltb_lt. lia.
Qed.

Lemma count_digits_digit (c : ascii) (r : string) (d : Z) :
  digit_of c = Some d -> count_digits (String c r) = 1 + count_digits r.
Proof. intros Hc. cbn [count_digits]. by rewrite Hc. Qed.

Lemma all_digits_no_spaces (s : string) : all_digits s = true -> no_spaces s = true.
Proof.
  induction s as [|c r IH]; [done|]. cbn.
  intros [Hc Hr]%andb_true_iff. by rewrite (digit_not_space c Hc), IH.
Qed.

Lemma no_spaces_rev_app (s1 s2 : string) :
  no_spaces s1 = true -> no_spaces s2 = true -> no_spaces (String.rev_app s1 s2) = true.
Proof.
  revert s2. induction s1 as [|c r IH]; intros s2; [done|]. cbn.
  intros [Hc Hr]%andb_true_iff Hs2. apply IH; [done|]. cbn. by rewrite Hc.
Qed.

Lemma rev_app_rev_app (s1 s2 s3 : string) :
  String.rev_app (String.rev_app s1 s2) s3 = String.rev_app s2 (s1 +:+ s3).
Proof.
  revert s2. induction s1 as [|c r IH]; intros s2; [done|].
  cbn. by rewrite IH.
Qed.

Lemma append_empty (s : string) : s +:+ "" = s.
Proof.
  induction s as [|c r IH]; [done|].
  change (String c (r +:+ "") = String c r). by rewrite IH.
Qed.

Lemma lstrip_no_spaces (s : string) : no_spaces s = true -> lstrip s = s.
Proof.
  destruct s as [|c r]; [done|]. cbn.
  intros [Hc _]%andb_true_iff. apply negb_true_iff in Hc. by rewrite Hc.
Qed.

(** [strip] leaves a text without whitespace as it is. *)
Lemma strip_no_spaces (s : string) : no_spaces s = true -> strip s = s.
Proof.
  intros Hs. unfold strip, String.rev. rewrite (lstrip_no_spaces s Hs).
  rewrite lstrip_no_spaces by by apply no_spaces_rev_app.
  by rewrite rev_app_rev_app, append_empty.
Qed.

Lemma pretty_N_char_digit (d : N) :
  (d < 10)%N ->
  digit_of (pretty_N_char d) = Some (Z.of_N d) /\ is_digit (pretty_N_char d) = true.
Proof.
  intros Hd.
  assert (d = 0 \/ d = 1 \/ d = 2 \/ d = 3 \/ d = 4 \/ d = 5 \/ d = 6 \/ d = 7
          \/ d = 8 \/ d = 9)%N as Hcases by lia.
  repeat (destruct Hcases as [-> | Hcases]; [by split|]). by subst.
Qed.

Lemma parse_digits_digit (c : ascii) (r : string) (d acc : Z) (seen : bool) :
  digit_of c = Some d ->
  parse_digits (String c r) acc seen = parse_digits r (10 * acc + d) true.
Proof. intros Hc. cbn [parse_digits]. by rewrite Hc. Qed.

(** The digits that [pretty] writes for a positive number, in front of [s]:
    they are digits, there is at least one, there are as many as the number
    has decimal places, and [parse_digits] reads the number back from them. *)
Lemma pretty_N_go_digits (x : N) :
  (0 < x)%N ->
  exists k : nat,
    10 ^ Z.of_nat k <= 10 * Z.of_N x /\ Z.of_N x < 10 ^ Z.of_nat k
    /\ forall s,
      (all_digits s = true -> all_digits (pretty_N_go x s) = true)
      /\ (exists c r, pretty_N_go x s = String c r /\ is_digit c = true)
      /\ count_digits (pretty_N_go x s) = Z.of_nat k + count_digits s
      /\ (forall acc seen,
            parse_digits (pretty_N_go x s) acc seen
            = parse_digits s (acc * 10 ^ Z.of_nat k + Z.of_N x) true).
Proof.
  induction (N.lt_wf_0 x) as [x _ IH]. intros Hx.
  assert (Hd : (x `mod` 10 < 10)%N) by (by apply N.mod_lt).
  destruct (pretty_N_char_digit _ Hd) as [Hdig Hisd].
  assert (Hsplit : Z.of_N x = 10 * Z.of_N (x `div` 10) + Z.of_N (x `mod` 10)).
  { pose proof (N.div_mod x 10). lia. }
  destruct (decide (x `div` 10 = 0)%N) as [Hz|Hnz].
  - exists 1%nat. change (10 ^ Z.of_nat 1) with 10.
    split; [lia|]. split; [lia|].
    intros s. rewrite pretty_N_go_step, Hz, pretty_N_go_0 by done.
    split; [|split; [|split]].
    + intros Hs. cbn. by rewrite Hisd.
    + eauto.
    + rewrite (count_digits_digit _ _ _ Hdig). lia.
    + intros acc seen. rewrite (parse_digits_digit _ _ _ _ _ Hdig).
      f_equal. rewrite Hsplit, Hz. lia.
  - destruct (IH (x `div` 10)%N) as (k & Hlo & Hhi & Hk); [apply N.div_lt; lia | lia |].
    exists (S k). rewrite Nat2Z.inj_succ, Z.pow_succ_r by lia.
    assert (Hb : 10 * 10 ^ Z.of_nat k <= 10 * Z.of_N x
                 /\ Z.of_N x < 10 * 10 ^ Z.of_nat k).
    { assert (Hr : 0 <= Z.of_N (x `mod` 10) < 10)
        by (split; [apply N2Z.is_nonneg|by apply (N2Z.inj_lt _ 10)]).
      revert Hlo Hhi Hsplit Hr.
      generalize (10 ^ Z.of_nat k) (Z.of_N x) (Z.of_N (x `div` 10)) (Z.of_N (x `mod` 10)).
      clear. intros. lia. }
    split; [apply Hb|]. split; [apply Hb|].
    intros s. rewrite pretty_N_go_step by done.
    destruct (Hk (String (pretty_N_char (x `mod` 10)) s)) as (Hall & Hhead & Hcount & Hparse).
    split; [|split; [|split]].
    + intros Hs. apply Hall. cbn. by rewrite Hisd.
    + done.
    + rewrite Hcount, (count_digits_digit _ _ _ Hdig). lia.
    + intros acc seen. rewrite Hparse, (parse_digits_digit _ _ _ _ _ Hdig).
      f_equal. lia.
Qed.

Lemma pretty_pos_digits (p : positive) :
  all_digits (pretty (N.pos p)) = true
  /\ (exists c r, pretty (N.pos p) = String c r /\ is_digit c = true)
  /\ parse_digits (pretty (N.pos p)) 0 false = Some (Z.pos p)
  /\ exists k : nat,
       count_digits (pretty (N.pos p)) = Z.of_nat k
       /\ 10 ^ Z.of_nat k <= 10 * Z.pos p /\ Z.pos p < 10 ^ Z.of_nat k.
Proof.
  destruct (pretty_N_go_digits (N.pos p)) as (k & Hlo & Hhi & Hk); [lia|].
  destruct (Hk "") as (Hall & Hhead & Hcount & Hparse).
  unfold pretty, pretty_N. rewrite decide_False by done.
  split; [by apply Hall|]. split; [done|]. split.
  - rewrite Hparse. cbn [parse_digits]. f_equal; lia.
  - exists k. rewrite Hcount. cbn [count_digits]. split; [lia|]. split; lia.
Qed.

(** A number below [10 ^ max_str_digits] has [max_str_digits] decimal places
    at most, and a number from there on has more. *)
Lemma places_within_limit (k : nat) (x : Z) :
  10 ^ Z.of_nat k <= 10 * x -> x < 10 ^ max_str_digits ->
  (max_str_digits <? Z.of_nat k) = false.
Proof.
  intros Hlo Hhi. apply Z.ltb_ge.
  destruct (Z.le_gt_cases (Z.of_nat k) max_str_digits) as [|Hgt]; [done|exfalso].
  assert (10 ^ (max_str_digits + 1) <= 10 ^ Z.of_nat k)
    by (apply Z.pow_le_mono_r; lia).
  rewrite Z.pow_add_r in * by (unfold max_str_digits; lia).
  change (10 ^ 1) with 10 in *. lia.
Qed.

Lemma places_beyond_limit (k : nat) (x : Z) :
  x < 10 ^ Z.of_nat k -> 10 ^ max_str_digits <= x ->
  (max_str_digits <? Z.of_nat k) = true.
Proof.
  intros Hhi Hlo. apply Z.ltb_lt.
  destruct (Z.le_gt_cases (Z.of_nat k) max_str_digits) as [Hle|]; [exfalso|lia].
  assert (10 ^ Z.of_nat k <= 10 ^ max_str_digits)
    by (apply Z.pow_le_mono_r; lia).
  lia.
Qed.

Lemma parse_int_digits (s : string) (c : ascii) (r : string) :
  s = String c r -> is_digit c = true -> all_digits s = true ->
  parse_int s = parse_limited s.
Proof.
  intros -> Hc Hs. unfold parse_int.
  rewrite strip_no_spaces by by apply all_digits_no_spaces.
  destruct c as [[] [] [] [] [] [] [] []]; try discriminate Hc; reflexivity.
Qed.

Lemma is_absent_digit_head (c : ascii) (r : string) :
  is_digit c = true -> is_absent (VStr (String c r)) = false.
Proof.
  intros Hc. destruct c as [[] [] [] [] [] [] [] []]; try discriminate Hc; reflexivity.
Qed.

(** What [int] makes of the decimal text of an integer [n]: the text of a
    positive number, and the text after the sign of a negative one, is read
    by [parse_limited]. *)
Lemma int_of_pretty `{Host} (n : Z) :
  n <> 0 ->
  is_absent (VStr (pretty n)) = false
  /\ int_of_str (pretty n)
     = (if n <? 0 then Z.opp else id) <$> parse_limited (pretty (Z.to_N (Z.abs n))).
Proof.
  intros Hn. destruct n as [|p|p]; [done| |].
  - destruct (pretty_pos_digits p) as (Hall & (c & r & Hs & Hc) & _).
    change (pretty (Z.pos p)) with (pretty (N.pos p)).
    change (Z.to_N (Z.abs (Z.pos p))) with (N.pos p).
    split; [rewrite Hs; by apply is_absent_digit_head|].
    unfold int_of_str. rewrite (all_digits_ascii _ Hall).
    rewrite (parse_int_digits _ c r Hs Hc Hall).
    change (Z.pos p <? 0) with false. cbn iota. by destruct (parse_limited _).
  - destruct (pretty_pos_digits p) as (Hall & _).
    change (pretty (Z.neg p)) with (String "-" (pretty (N.pos p))).
    change (Z.to_N (Z.abs (Z.neg p))) with (N.pos p).
    split; [done|].
    unfold int_of_str. cbn [is_ascii_text]. rewrite (all_digits_ascii _ Hall).
    change ((nat_of_ascii "-" <? 128)%nat && true) with true. cbn iota.
    unfold parse_int. rewrite strip_no_spaces.
    + done.
    + cbn [no_spaces]. by rewrite (all_digits_no_spaces _ Hall).
Qed.

(** The coercion reads an integer back from its decimal text as long as the
    text has no more digits than [int] accepts, 4300 by default: an id sent
    as a string coerces to the integer that the same id sent as a number is.
    The text of a longer number is refused by [int] and coerces to null. *)
Theorem to_int_reads_decimal_text `{Host} (n : Z) :
  _to_int (VInt n) = Ok (Some n)
  /\ (Z.abs n < 10 ^ max_str_digits -> _to_int (VStr (pretty n)) = Ok (Some n))
  /\ (10 ^ max_str_digits <= Z.abs n -> _to_int (VStr (pretty n)) = Ok None).
Proof.
  split; [reflexivity|].
  destruct (decide (n = 0)) as [->|Hn].
  { split; [reflexivity|]. intros Hbig. exfalso.
    assert (0 < 10 ^ max_str_digits) by (by apply Z.pow_pos_nonneg).
    change (Z.abs 0) with 0 in Hbig. lia. }
  destruct (int_of_pretty n Hn) as [Habs Hint].
  unfold _to_int. rewrite Habs. cbn [py_int rbind try_except]. rewrite Hint.
  assert (Hp : exists p, Z.to_N (Z.abs n) = N.pos p /\ Z.abs n = Z.pos p).
  { destruct n as [|p|p]; [done|by exists p..]. }
  destruct Hp as (p & -> & Hp).
  destruct (pretty_pos_digits p) as (_ & _ & Hparse & k & Hcount & Hlo & Hhi).
  unfold parse_limited. rewrite Hcount, Hparse, Hp.
  split; intros Hlimit.
  - rewrite (places_within_limit k (Z.pos p)) by done.
    destruct n as [|q|q]; [done| |]; cbn in Hp; injection Hp as ->; reflexivity.
  - rewrite (places_beyond_limit k (Z.pos p)) by done.
    by destruct (n <? 0).
Qed.

(** ** The further properties on sample requests *)

Lemma response_is_one_of_four_witness :
  error_response "An unexpected error occurred." = error_response "Missing payload."
  \/ error_response "An unexpected error occurred."
     = error_response "Both result_id and quiz_title are required."
  \/ error_response "An unexpected error occurred."
     = error_response "An unexpected error occurred."
  \/ exists name rid,
       error_response "An unexpected error occurred." = success_response name rid.
Proof.
  apply (response_is_one_of_four (H:=example_host) commit_fails
           (json_request minimal_payload) empty_world _ (rolled_back empty_world)).
  vm_compute. reflexivity.
Defined.

Lemma raise_leaves_world_witness :
  (submit_quiz_result (H:=example_host) lookup_fails
     (json_request minimal_payload) one_row_world).2 = one_row_world.
Proof.
  apply (raise_leaves_world (H:=example_host) lookup_fails
           (json_request minimal_payload) one_row_world StoreError).
  vm_compute. reflexivity.
Defined.

Lemma only_success_commits_witness :
  db_committed (rolled_back one_row_world) = db_committed one_row_world
  /\ (db_session one_row_world = db_committed one_row_world ->
      db_session (rolled_back one_row_world) = db_committed (rolled_back one_row_world)).
Proof.
  apply (only_success_commits (H:=example_host) commit_fails
           (json_request minimal_payload) one_row_world
           (Ok (error_response "An unexpected error occurred."))).
  - vm_compute. reflexivity.
  - intros name rid Hr. discriminate Hr.
Defined.

Lemma log_only_on_unexpected_error_witness :
  (Ok (error_response "An unexpected error occurred.")
   = Ok (error_response "An unexpected error occurred.") ->
   error_log (rolled_back one_row_world) = error_log one_row_world ++ [log_title])
  /\ (@Ok value (error_response "An unexpected error occurred.")
      <> Ok (error_response "An unexpected error occurred.") ->
      error_log (rolled_back one_row_world) = error_log one_row_world).
Proof.
  apply (log_only_on_unexpected_error (H:=example_host) commit_fails
           (json_request minimal_payload) one_row_world).
  vm_compute. reflexivity.
Defined.

Lemma validation_ignores_store_witness :
  submit_quiz_result (H:=example_host) lookup_fails
    (json_request (VDict zero_id_payload)) one_row_world
  = (Ok (error_response "Both result_id and quiz_title are required."), one_row_world).
Proof.
  apply (validation_ignores_store (H:=example_host) no_faults lookup_fails
           (json_request (VDict zero_id_payload)) one_row_world _ one_row_world).
  - right. reflexivity.
  - vm_compute. reflexivity.
Defined.

Lemma first_submission_creates_row_witness :
  exists p values d',
    _load_payload (H:=example_host) (json_request minimal_payload) = Ok (VDict p)
    /\ doc_values (H:=example_host) p 1 (dict_get p "quiz_title") one_row_world
       = (Ok values, one_row_world)
    /\ db_committed (submit_quiz_result (H:=example_host) no_faults
                       (json_request minimal_payload) one_row_world).2
       = db_session one_row_world ++ [d']
    /\ doc_name d' = "PTR-1"
    /\ forall key,
         doc_fields d' !! key =
           if is_None (dict_get values key) then None else Some (dict_get values key).
Proof.
  apply (first_submission_creates_row (H:=example_host) no_faults
           (json_request minimal_payload) one_row_world "PTR-1" 1).
  - vm_compute. reflexivity.
  - vm_compute. reflexivity.
Defined.

Lemma update_leaves_other_rows_witness :
  "PTR-123" = doc_name stored_row
  /\ length (db_committed (submit_quiz_result (H:=example_host) no_faults
                             (json_request retake_payload) two_row_world).2)
     = length (db_session two_row_world)
  /\ forall i r, db_session two_row_world !! i = Some r -> doc_name r <> "PTR-123" ->
                 db_committed (submit_quiz_result (H:=example_host) no_faults
                                 (json_request retake_payload) two_row_world).2 !! i
                 = Some r.
Proof.
  apply (update_leaves_other_rows (H:=example_host) no_faults
           (json_request retake_payload) two_row_world "PTR-123" 123).
  - vm_compute. reflexivity.
  - vm_compute. reflexivity.
Defined.

Lemma success_stores_key_fields_witness :
  exists p d',
    _load_payload (H:=example_host) (json_request minimal_payload) = Ok (VDict p)
    /\ d' ∈ db_committed (submit_quiz_result (H:=example_host) no_faults
                            (json_request minimal_payload) empty_world).2
    /\ doc_name d' = "PTR-1"
    /\ doc_fields d' !! "result_id" = Some (VInt 1)
    /\ doc_fields d' !! "quiz_title"
       = Some (VStr (py_str (H:=example_host) (dict_get p "quiz_title")))
    /\ doc_fields d' !! "raw_payload"
       = Some (VStr (json_dumps (H:=example_host) (VDict p))).
Proof.
  apply (success_stores_key_fields (H:=example_host) no_faults
           (json_request minimal_payload) empty_world "PTR-1" 1).
  vm_compute. reflexivity.
Defined.

Lemma lookup_after_success_witness :
  get_all (fun _ => false) 1
    (submit_quiz_result (H:=example_host) no_faults
       (json_request minimal_payload) one_row_world).2
  = (Ok ["PTR-1"],
     (submit_quiz_result (H:=example_host) no_faults
        (json_request minimal_payload) one_row_world).2).
Proof.
  apply (lookup_after_success (H:=example_host) no_faults (fun _ => false)
           (json_request minimal_payload) one_row_world "PTR-1" 1).
  - apply store_ok_one_row.
  - vm_compute. reflexivity.
  - reflexivity.
Defined.

Lemma resubmission_is_idempotent_witness :
  submit_quiz_result (H:=example_host) no_faults (json_request retake_payload)
    (submit_quiz_result (H:=example_host) no_faults
       (json_request retake_payload) one_row_world).2
  = (Ok (success_response "PTR-123" 123),
     (submit_quiz_result (H:=example_host) no_faults
        (json_request retake_payload) one_row_world).2).
Proof.
  apply (resubmission_is_idempotent (H:=example_host) no_faults
           (json_request retake_payload) one_row_world "PTR-123" 123).
  - apply store_ok_one_row.
  - vm_compute. reflexivity.
Defined.

Lemma success_implies_valid_witness :
  exists p,
    _load_payload (H:=example_host) (json_request minimal_payload) = Ok (VDict p)
    /\ _to_int (H:=example_host) (dict_get p "result_id") = Ok (Some 1)
    /\ 1 <> 0
    /\ truthy (dict_get p "quiz_title") = true.
Proof.
  apply (success_implies_valid (H:=example_host) no_faults
           (json_request minimal_payload) empty_world "PTR-1" 1
           (submit_quiz_result (H:=example_host) no_faults
              (json_request minimal_payload) empty_world).2).
  vm_compute. reflexivity.
Defined.

Lemma non_mapping_payload_raises_witness :
  submit_quiz_result (H:=example_host) no_faults
    (json_request (VList [VInt 1])) empty_world
  = (Raise AttributeError, empty_world).
Proof.
  apply (non_mapping_payload_raises (H:=example_host) no_faults
           (json_request (VList [VInt 1])) empty_world (VList [VInt 1])).
  - left. reflexivity.
  - reflexivity.
  - intros p Hp. discriminate Hp.
Defined.

Lemma non_mapping_user_raises_witness :
  submit_quiz_result (H:=example_host) no_faults
    (json_request (VDict plain_user_payload)) empty_world
  = (Raise AttributeError, empty_world).
Proof.
  apply (non_mapping_user_raises (H:=example_host) no_faults
           (json_request (VDict plain_user_payload)) plain_user_payload empty_world 1).
  - reflexivity.
  - reflexivity.
  - discriminate.
  - reflexivity.
  - intros key Hk. exists None.
    apply list_elem_of_In in Hk. destruct Hk as [<-|[<-|[]]]; reflexivity.
  - intros key Hk. exists None.
    apply list_elem_of_In in Hk. destruct Hk as [<-|[<-|[<-|[<-|[]]]]]; reflexivity.
  - reflexivity.
  - intros u Hu. discriminate Hu.
Defined.

Lemma to_datetime_returns_timestamp_witness :
  truthy (VStr "2024-01-01T10:00:00") = true
  /\ is_timestamp "2024-01-01 10:00:00" = true.
Proof.
  apply (to_datetime_returns_timestamp (H:=example_host) (VStr "2024-01-01T10:00:00")).
  - intros dt Hdt. vm_compute in Hdt. injection Hdt as <-.
    unfold valid_datetime. cbn. lia.
  - vm_compute. reflexivity.
Defined.

(** A datetime of the year 99 is written with a two-digit year. *)
Example strftime_of_early_year :
  strftime (Datetime 99 1 1 0 0 0) = "99-01-01 00:00:00"
  /\ is_timestamp (strftime (Datetime 99 1 1 0 0 0)) = false.
Proof. split; vm_compute; reflexivity. Qed.

Lemma to_int_reads_decimal_text_witness :
  _to_int (H:=example_host) (VStr (pretty 123)) = Ok (Some 123).
Proof.
  apply (proj1 (proj2 (to_int_reads_decimal_text (H:=example_host) 123))).
  apply Z.ltb_lt. vm_compute. reflexivity.
Defined.

Lemma custom_fields_first_usable_witness :
  _extract_custom_value (H:=example_host) custom_list_payload
    "quiz_attr_2" "Student's Name" = Some "Jane Doe".
Proof.
  apply (custom_fields_first_usable (H:=example_host) custom_list_payload
           [VDict [("slug", VStr "quiz_attr_2"); ("value", VStr "")]; VStr "stray"]
           [("label", VStr "Student's Name"); ("value", VStr "Jane Doe")]
           [] "quiz_attr_2" "Student's Name").
  - reflexivity.
  - reflexivity.
  - repeat constructor.
  - reflexivity.
  - reflexivity.
Defined.

Lemma to_int_returns_off_infinity_witness :
  exists r, _to_int (H:=example_host) (VStr "abc") = Ok r.
Proof.
  apply (to_int_returns_off_infinity (H:=example_host) (VStr "abc")).
  intros neg Hneg. discriminate Hneg.
Defined.

Lemma to_float_returns_off_big_int_witness :
  exists r, _to_float (H:=example_host) (VInt 35) = Ok r.
Proof.
  apply (to_float_returns_off_big_int (H:=example_host) (VInt 35)).
  intros n Hn. injection Hn as <-. eexists. reflexivity.
Defined.

Lemma upsert_guarded_failure_witness :
  upsert (H:=example_host) commit_fails 1 [("result_id", VInt 1)] empty_world
  = (Ok (error_response "An unexpected error occurred."), rolled_back empty_world).
Proof.
  apply (upsert_guarded_failure (H:=example_host) commit_fails 1
           [("result_id", VInt 1)] empty_world).
  - reflexivity.
  - reflexivity.
Defined.

Lemma valid_request_succeeds_witness :
  exists name w',
    submit_quiz_result (H:=example_host) no_faults (json_request minimal_payload)
      empty_world
    = (Ok (success_response name 1), w').
Proof.
  eapply (valid_request_succeeds (H:=example_host) (json_request minimal_payload)
            [("result_id", VInt 1); ("quiz_title", VStr "Q")] 1 _ empty_world).
  - reflexivity.
  - reflexivity.
  - discriminate.
  - reflexivity.
  - vm_compute. reflexivity.
  - right. vm_compute. reflexivity.
Defined.

(** ** Extracted values are never empty *)

Lemma pretty_Z_nonempty (n : Z) : pretty n <> "".
Proof.
  destruct n as [|p|p]; [done| |done].
  destruct (pretty_pos_digits p) as (_ & (c & r & Hs & _) & _).
  change (pretty (Z.pos p)) with (pretty (N.pos p)). by rewrite Hs.
Qed.

Section NonEmpty.
Context `{Host}.
Hypothesis repr_nonempty : forall v, py_repr v <> "".

Lemma py_str_nonempty (v : value) : not_empty v = true -> py_str v <> "".
Proof using repr_nonempty.
  destruct v as [|b|n|f|s|l|d]; cbn [py_str]; intros Hv;
    try apply repr_nonempty.
  - discriminate Hv.
  - by destruct b.
  - apply pretty_Z_nonempty.
  - by destruct s.
Qed.

Lemma scan_custom_fields_nonempty (entries : list value) slug label s :
  scan_custom_fields entries slug label = Some s -> s <> "".
Proof using repr_nonempty.
  induction entries as [|entry entries IH]; [done|].
  destruct entry as [| | | | | |e]; cbn [scan_custom_fields]; try done.
  destruct (eq_str (dict_get e "slug") slug || eq_str (dict_get e "label") label);
    [|done].
  destruct (not_empty (dict_get e "value")) eqn:Hv; [|done].
  intros [= <-]. by apply py_str_nonempty.
Qed.

(** The extraction never yields the empty string: a custom field is stored
    as a non-empty text or not at all (the interpreter's [repr] of a float,
    list or dict being non-empty). *)
Theorem extracted_value_never_empty (payload : list (string * value)) slug label s :
  _extract_custom_value payload slug label = Some s -> s <> "".
Proof using repr_nonempty.
  unfold _extract_custom_value, from_fields, from_custom_fields,
    from_custom_field_values.
  destruct (py_or (dict_get payload "fields") (VDict [])) as [| | | | | |fields];
    try (destruct (fields_item fields slug label) as [| | | | | |item];
         try destruct (not_empty (dict_get item "value")) eqn:Hitem);
    try (intros [= <-]; by apply py_str_nonempty);
    (destruct (py_or (dict_get payload "custom_fields") (VList []))
       as [| | | | |entries|];
     try (destruct (scan_custom_fields entries slug label) as [t|] eqn:Hscan;
          [intros [= <-]; by eapply scan_custom_fields_nonempty|]);
     (destruct (py_or (dict_get payload "custom_field_values") (VDict []))
        as [| | | | | |cfv]; try done;
      destruct (not_empty (dict_get cfv slug)) eqn:Hcfv; [|done];
      intros [= <-]; by apply py_str_nonempty)).
Qed.

End NonEmpty.

Lemma extracted_value_never_empty_witness : "Jane Doe" <> "".
Proof.
  apply (extracted_value_never_empty (H:=example_host)
           ltac:(intros v Hv; discriminate Hv)
           conflicting_payload "quiz_attr_2" "Student's Name").
  reflexivity.
Defined.
